(** * Portfolio API: the keyword ranking endpoint and the generic CRUD helpers

    A shallow embedding of [src/main.py].  Python values are modelled as
    follows.

    - A [str] is a [string]: a sequence of bytes.  Case folding and
      whitespace are the ASCII ones; bytes above 127 (the UTF-8 encoding of
      other characters, such as the dash of the summary sentence) are carried
      unchanged.
    - A document (a Python [dict] with [str] keys) is a [gmap string value].
    - The values a document holds are [None], booleans, integers, strings,
      lists of strings (every list field of [src/schemas.py] is declared
      [List[str]]), store identifiers and datetimes.
    - An exception is a value of [error]; code that can raise returns a
      [result].
    - The document store is explicit state: a map from collection names to
      the documents of the collection in the order in which an unsorted
      [find] returns them. *)

From Stdlib Require Import ZArith String Ascii List Lia Bool Permutation Sorted.
From Stdlib Require DecimalString.
From stdpp Require Import base option gmap strings list.

Open Scope string_scope.

(** ** Strings *)

Module PyStr.

Definition lower_ascii (c : ascii) : ascii :=
  let n := nat_of_ascii c in
  if (65 <=? n)%nat && (n <=? 90)%nat then ascii_of_nat (n + 32) else c.

(** [str.lower] *)
Fixpoint lower (s : string) : string :=
  match s with
  | EmptyString => EmptyString
  | String c s' => String (lower_ascii c) (lower s')
  end.

(** The ASCII characters for which [str.isspace] holds: tab, line feed,
    vertical tab, form feed, carriage return, the four separators
    0x1c-0x1f and the space. *)
Definition is_space (c : ascii) : bool :=
  let n := nat_of_ascii c in
  ((9 <=? n)%nat && (n <=? 13)%nat) || ((28 <=? n)%nat && (n <=? 32)%nat).

Definition starts_token (s : string) : bool :=
  match s with
  | String c _ => negb (is_space c)
  | EmptyString => false
  end.

(** [str.split()] without arguments: the maximal runs of non-whitespace
    characters, in order. *)
Fixpoint split (s : string) : list string :=
  match s with
  | EmptyString => []
  | String c s' =>
      if is_space c then split s'
      else if starts_token s' then
        match split s' with
        | t :: ts => String c t :: ts
        | [] => [String c EmptyString]
        end
      else String c EmptyString :: split s'
  end.

Fixpoint startswith (p s : string) : bool :=
  match p, s with
  | EmptyString, _ => true
  | String a p', String b s' => Ascii.eqb a b && startswith p' s'
  | String _ _, EmptyString => false
  end.

(** [p in s] for two strings: [p] occurs in [s] as a contiguous run. *)
Fixpoint contains (p s : string) : bool :=
  startswith p s ||
  match s with
  | EmptyString => false
  | String _ s' => contains p s'
  end.

(** [sep.join(l)] for a list of strings. *)
Definition join (sep : string) (l : list string) : string :=
  String.concat sep l.

Fixpoint lstrip (s : string) : string :=
  match s with
  | String c s' => if is_space c then lstrip s' else s
  | EmptyString => EmptyString
  end.

Fixpoint rstrip (s : string) : string :=
  match s with
  | String c s' =>
      match rstrip s' with
      | EmptyString => if is_space c then EmptyString else String c EmptyString
      | r => String c r
      end
  | EmptyString => EmptyString
  end.

(** [str.strip()] *)
Definition strip (s : string) : string := rstrip (lstrip s).

(** The one-character strings a [str] yields when it is iterated. *)
Fixpoint chars (s : string) : list string :=
  match s with
  | EmptyString => []
  | String c s' => String c EmptyString :: chars s'
  end.

(** [s[:n]] *)
Fixpoint take (n : nat) (s : string) : string :=
  match n, s with
  | S n', String c s' => String c (take n' s')
  | _, _ => EmptyString
  end.

Definition of_nat (n : nat) : string :=
  DecimalString.NilZero.string_of_uint (Nat.to_uint n).

Definition of_Z (z : Z) : string :=
  DecimalString.NilZero.string_of_int (Z.to_int z).

Fixpoint zeros (n : nat) : string :=
  match n with
  | O => EmptyString
  | S n' => String "0" (zeros n')
  end.

(** [f"{n:0{w}d}"] for a natural number. *)
Definition pad (w n : nat) : string :=
  let s := of_nat n in zeros (w - String.length s) ++ s.

Definition hex_digit (n : nat) : ascii :=
  if (n <? 10)%nat then ascii_of_nat (48 + n) else ascii_of_nat (87 + n).

Definition dquote : ascii := ascii_of_nat 34.
Definition squote : ascii := ascii_of_nat 39.
Definition backslash : ascii := ascii_of_nat 92.

Definition has_char (c : ascii) (s : string) : bool :=
  contains (String c EmptyString) s.

Definition repr_char (q c : ascii) : string :=
  let n := nat_of_ascii c in
  if Ascii.eqb c q || Ascii.eqb c backslash then String backslash (String c EmptyString)
  else if (n =? 9)%nat then String backslash "t"
  else if (n =? 10)%nat then String backslash "n"
  else if (n =? 13)%nat then String backslash "r"
  else if (n <? 32)%nat || (n =? 127)%nat then
    String backslash (String "x" (String (hex_digit (n / 16)) (String (hex_digit (n mod 16)) EmptyString)))
  else String c EmptyString.

Fixpoint repr_body (q : ascii) (s : string) : string :=
  match s with
  | EmptyString => EmptyString
  | String c s' => repr_char q c ++ repr_body q s'
  end.

(** [repr(s)] of a string: single quotes, unless the string holds a single
    quote and no double quote. *)
Definition repr (s : string) : string :=
  let q := if has_char squote s && negb (has_char dquote s) then dquote else squote in
  String q (repr_body q s) ++ String q EmptyString.

End PyStr.

(** ** Values and documents *)

Record datetime := mk_datetime {
  year : nat; month : nat; day : nat;
  hour : nat; minute : nat; second : nat; microsecond : nat
}.

Inductive value :=
| VNull
| VBool (b : bool)
| VInt (z : Z)
| VStr (s : string)
| VList (l : list string)
| VOid (hex : string)
| VDatetime (t : datetime).

#[global] Instance datetime_eq_dec : EqDecision datetime.
Proof. solve_decision. Defined.

#[global] Instance value_eq_dec : EqDecision value.
Proof. solve_decision. Defined.

(** A document of the store, and a JSON object of a response. *)
Abbreviation doc := (gmap string value).

Definition date_part (t : datetime) : string :=
  PyStr.pad 4 (year t) ++ "-" ++ PyStr.pad 2 (month t) ++ "-" ++ PyStr.pad 2 (day t).

Definition time_part (t : datetime) : string :=
  PyStr.pad 2 (hour t) ++ ":" ++ PyStr.pad 2 (minute t) ++ ":" ++ PyStr.pad 2 (second t)
  ++ (if (microsecond t =? 0)%nat then "" else "." ++ PyStr.pad 6 (microsecond t)).

(** [datetime.isoformat()] of a naive datetime. *)
Definition isoformat (t : datetime) : string := date_part t ++ "T" ++ time_part t.

(** [str(v)], as an f-string placeholder formats a value. *)
Definition py_str (v : value) : string :=
  match v with
  | VNull => "None"
  | VBool true => "True"
  | VBool false => "False"
  | VInt z => PyStr.of_Z z
  | VStr s => s
  | VList l => "[" ++ PyStr.join ", " (map PyStr.repr l) ++ "]"
  | VOid hex => hex
  | VDatetime t => date_part t ++ " " ++ time_part t
  end.

(** Truth value of a value in a condition. *)
Definition truthy (v : value) : bool :=
  match v with
  | VNull => false
  | VBool b => b
  | VInt z => negb (z =? 0)%Z
  | VStr s => negb (String.eqb s "")
  | VList l => match l with [] => false | _ => true end
  | VOid _ => true
  | VDatetime _ => true
  end.

(** ** Exceptions *)

Inductive error :=
| HTTPException (status_code : Z) (detail : string)
| TypeError
| StoreError.

Inductive result (A : Type) :=
| Ok (a : A)
| Err (e : error).
Arguments Ok {A} a.
Arguments Err {A} e.

#[global] Instance result_ret : MRet result := fun A a => Ok a.

#[global] Instance result_bind : MBind result := fun A B k r =>
  match r with
  | Ok a => k a
  | Err e => Err e
  end.

(** Evaluates [f] on every element, left to right; the first exception wins. *)
Fixpoint traverse {A B} (f : A -> result B) (l : list A) : result (list B) :=
  match l with
  | [] => Ok []
  | x :: l' => y ← f x; ys ← traverse f l'; Ok (y :: ys)
  end.

(** ** Utilities of main.py *)

Definition isoformat_value (v : value) : value :=
  match v with
  | VDatetime t => VStr (isoformat t)
  | _ => v
  end.

(** [not doc] for a dictionary: it has no entry. *)
Definition is_empty (d : doc) : bool :=
  match map_to_list d with
  | [] => true
  | _ :: _ => false
  end.

Definition as_serializable (d0 : doc) : doc :=
  if is_empty d0 then d0
  else
    let d :=
      match d0 !! "_id" with
      | Some v => if truthy v then <["id" := VStr (py_str v)]> (delete "_id" d0) else d0
      | None => d0
      end in
    isoformat_value <$> d.

(** [as_serializable] applied to what [find_one] returns: [None] (no
    document) is falsy and handed back. *)
Definition as_serializable_opt (o : option doc) : option doc :=
  as_serializable <$> o.

Inductive model_cls := Profile | Project | Certificate | JournalEntry | SkillSnapshot | Milestone.

Definition class_name (m : model_cls) : string :=
  match m with
  | Profile => "Profile"
  | Project => "Project"
  | Certificate => "Certificate"
  | JournalEntry => "JournalEntry"
  | SkillSnapshot => "SkillSnapshot"
  | Milestone => "Milestone"
  end.

Definition coll_name (m : model_cls) : string := PyStr.lower (class_name m).

(** ** The document store

    The store is the external MongoDB database behind [db]; what the code
    uses of it is modelled here: collections addressed by name, an unsorted
    [find] that returns the documents in the collection's own order,
    [find_one], [update_one] with [$set], [delete_one], and filters built
    from [$elemMatch] and [$regex].  A datetime is stored to the
    millisecond.  [$set] is modelled for mappings the store takes as plain
    top-level fields: what the store does with a dotted or [$]-prefixed
    name, with a write to the immutable [_id] or with a value it cannot
    encode is not part of the model, and the statements that depend on it
    say so in a hypothesis. *)

Abbreviation database := (gmap string (list doc)).

(** [db[name]]: a collection that was never written to is empty. *)
Definition collection (d : database) (name : string) : list doc :=
  default [] (d !! name).

Definition is_hex (c : ascii) : bool :=
  let n := nat_of_ascii c in
  ((48 <=? n)%nat && (n <=? 57)%nat) || ((65 <=? n)%nat && (n <=? 70)%nat)
  || ((97 <=? n)%nat && (n <=? 102)%nat).

(** The characters [bytes.fromhex] skips: the ASCII whitespace. *)
Definition is_blank (c : ascii) : bool :=
  let n := nat_of_ascii c in
  ((9 <=? n)%nat && (n <=? 13)%nat) || (n =? 32)%nat.

(** [bytes.fromhex(s)]: pairs of hexadecimal digits, with whitespace allowed
    before, between and after the pairs but not inside one; [ValueError]
    otherwise.  The bytes are given as hexadecimal digits in lower case, two
    per byte. *)
Fixpoint fromhex (s : string) : option string :=
  match s with
  | EmptyString => Some EmptyString
  | String c s' =>
      if is_blank c then fromhex s'
      else if is_hex c then
        match s' with
        | String c' s'' =>
            if is_hex c'
            then option_map
                   (fun rest => String (PyStr.lower_ascii c) (String (PyStr.lower_ascii c') rest))
                   (fromhex s'')
            else None
        | EmptyString => None
        end
      else None
  end.

(** [ObjectId(s)] for a string: the string has 24 characters and
    [bytes.fromhex] reads it, or else [InvalidId].  The identifier is the
    bytes read, fewer than twelve when the string holds whitespace; two
    identifiers are equal when their bytes are, and [str] prints the bytes
    as hexadecimal digits in lower case. *)
Definition ObjectId (s : string) : option string :=
  if (String.length s =? 24)%nat then fromhex s else None.

(** The store's regular-expression search: [regex_search pattern options
    subject] tells whether [pattern], read with [options], matches somewhere
    in [subject]. *)
Class RegexEngine := regex_search : string -> string -> string -> bool.

Definition is_meta (c : ascii) : bool :=
  existsb (Ascii.eqb c) (list_ascii_of_string "\^$.|?*+()[]{}").

(** A pattern without metacharacters stands for itself. *)
Definition literal (p : string) : bool :=
  forallb (fun c => negb (is_meta c)) (list_ascii_of_string p).

(** What every engine does on such patterns under option [i]: a
    case-insensitive substring search. *)
Definition LiteralSearch (E : RegexEngine) : Prop :=
  forall p s, literal p = true ->
    regex_search p "i" s = PyStr.contains (PyStr.lower p) (PyStr.lower s).

(** A small engine: [.] stands for any character but a line feed, every
    other character for itself; under option [i] case is folded. *)
Fixpoint match_here (p s : string) : bool :=
  match p, s with
  | EmptyString, _ => true
  | String a p', String b s' =>
      (if Ascii.eqb a "." then negb (Ascii.eqb b (ascii_of_nat 10)) else Ascii.eqb a b)
      && match_here p' s'
  | String _ _, EmptyString => false
  end.

Fixpoint search (p s : string) : bool :=
  match_here p s ||
  match s with
  | EmptyString => false
  | String _ s' => search p s'
  end.

Definition simple_engine : RegexEngine := fun p options s =>
  if PyStr.has_char "i" options then search (PyStr.lower p) (PyStr.lower s)
  else search p s.

(** A condition on one field of a filter document. *)
Inductive condition :=
| ElemMatchRegex (pattern options : string).
    (* {"$elemMatch": {"$regex": pattern, "$options": options}} *)

Abbreviation filter_doc := (gmap string condition).

Section Store.
Context {E : RegexEngine}.

(** [$elemMatch] selects a document whose field is an array with at least
    one element that satisfies the condition. *)
Definition holds (c : condition) (v : option value) : bool :=
  match c, v with
  | ElemMatchRegex p o, Some (VList l) => existsb (regex_search p o) l
  | ElemMatchRegex _ _, _ => false
  end.

(** A document matches a filter when every field condition holds. *)
Definition matches (f : filter_doc) (d : doc) : bool :=
  bool_decide (map_Forall (fun k c => holds c (d !! k) = true) f).

(** Modelled from the spec: [get_documents] of database.py, which is not
    among the sources.  Section 4.1: list(kind, filter, limit?) gives a
    sequence of records; the filter maps fields to match predicates, an
    absent filter matches everything, and the results are not ordered
    unless a component sorts them.  Section 7: a store fault propagates
    as an error. *)
Definition get_documents (db : option database) (collection_name : string)
    (filter_dict : filter_doc) (limit : option nat) : result (list doc) :=
  match db with
  | None => Err StoreError
  | Some d =>
      let found := List.filter (matches filter_dict) (collection d collection_name) in
      Ok (match limit with
          | Some n => firstn n found
          | None => found
          end)
  end.

End Store.

(** The filter [{"_id": oid}]. *)
Definition has_id (oid : string) (d : doc) : bool :=
  match d !! "_id" with
  | Some (VOid hex) => String.eqb hex oid
  | _ => false
  end.

Definition find_one (d : database) (name oid : string) : option doc :=
  List.find (has_id oid) (collection d name).

Fixpoint update_first (p : doc -> bool) (f : doc -> doc) (l : list doc) : list doc :=
  match l with
  | [] => []
  | x :: l' => if p x then f x :: l' else x :: update_first p f l'
  end.

Fixpoint remove_first (p : doc -> bool) (l : list doc) : list doc :=
  match l with
  | [] => []
  | x :: l' => if p x then l' else x :: remove_first p l'
  end.

(** [$set]: every named field takes the given value, the others stay. *)
Definition set_fields (fields d : doc) : doc := fields ∪ d.

(** A datetime as the store keeps it: milliseconds, the rest of the
    microseconds dropped. *)
Definition truncate_ms (t : datetime) : datetime :=
  {| year := year t; month := month t; day := day t;
     hour := hour t; minute := minute t; second := second t;
     microsecond := (microsecond t / 1000 * 1000)%nat |}.

(** A value as it is once written to the store and read back. *)
Definition bson_value (v : value) : value :=
  match v with
  | VDatetime t => VDatetime (truncate_ms t)
  | _ => v
  end.

(** [update_one({"_id": oid}, {"$set": fields})]: the first matching
    document is updated with the values as the store keeps them; gives
    [matched_count] and the store afterwards. *)
Definition update_one (d : database) (name oid : string) (fields : doc) : nat * database :=
  let docs := collection d name in
  if existsb (has_id oid) docs
  then (1%nat,
        <[name := update_first (has_id oid) (set_fields (bson_value <$> fields)) docs]> d)
  else (0%nat, d).

(** [delete_one({"_id": oid})]: the first matching document is removed;
    gives [deleted_count] and the store afterwards. *)
Definition delete_one (d : database) (name oid : string) : nat * database :=
  let docs := collection d name in
  if existsb (has_id oid) docs
  then (1%nat, <[name := remove_first (has_id oid) docs]> d)
  else (0%nat, d).

(** ** Generic CRUD helpers *)

Definition to_oid (id_str : string) : result string :=
  match ObjectId id_str with
  | Some oid => Ok oid
  | None => Err (HTTPException 400 "Invalid ID")
  end.

Section Crud.
Context {E : RegexEngine}.

Definition list_items (db : option database) (m : model_cls)
    (limit : option nat) (filters : option filter_doc) : result (list doc) :=
  let collection := coll_name m in
  docs ← get_documents db collection (default ∅ filters) limit;
  Ok (map as_serializable docs).

(** GET /profile *)
Definition get_profile (db : option database) : result doc :=
  docs ← list_items db Profile (Some 1%nat) None;
  Ok (match docs with
      | d :: _ => d
      | [] => ∅
      end).

(** A query parameter counts when it is given and not empty. *)
Definition given (p : option string) : bool :=
  match p with
  | Some s => negb (String.eqb s "")
  | None => false
  end.

(** GET /projects *)
Definition get_projects (db : option database) (tag tech : option string) : result (list doc) :=
  let filt : filter_doc := ∅ in
  let filt := if given tag then <["highlights" := ElemMatchRegex (default "" tag) "i"]> filt else filt in
  let filt := if given tech then <["tech_stack" := ElemMatchRegex (default "" tech) "i"]> filt else filt in
  list_items db Project None (Some filt).

End Crud.

(** The calls a helper makes on the store, in order. *)
Inductive store_call :=
| UpdateOne (name oid : string) (fields : doc)
| FindOne (name oid : string)
| DeleteOne (name oid : string).

(** What a helper that writes leaves behind: what it returned or raised,
    the store afterwards, and the store calls it made. *)
Record outcome (A : Type) := mk_outcome {
  returned : result A;
  store : option database;
  calls : list store_call
}.
Arguments mk_outcome {A} _ _ _.
Arguments returned {A} _.
Arguments store {A} _.
Arguments calls {A} _.

(** [update_item].  [now] is what [datetime.utcnow()] reads.  Subscripting
    [db] comes first and fails when no store is configured; [to_oid] is
    evaluated before [update_one] is called. *)
Definition update_item (db : option database) (m : model_cls) (id_str : string)
    (data : doc) (now : datetime) : outcome (option doc) :=
  let collection := coll_name m in
  match db with
  | None => mk_outcome (Err TypeError) db []
  | Some d =>
      match to_oid id_str with
      | Err e => mk_outcome (Err e) db []
      | Ok oid =>
          let fields := <["updated_at" := VDatetime now]> data in
          let '(matched_count, d') := update_one d collection oid fields in
          let log := [UpdateOne collection oid fields] in
          if (matched_count =? 0)%nat
          then mk_outcome (Err (HTTPException 404 "Not found")) (Some d') log
          else
            match to_oid id_str with
            | Err e => mk_outcome (Err e) (Some d') log
            | Ok oid' =>
                mk_outcome (Ok (as_serializable_opt (find_one d' collection oid')))
                  (Some d') (log ++ [FindOne collection oid'])
            end
      end
  end.

Definition delete_item (db : option database) (m : model_cls) (id_str : string)
    : outcome doc :=
  let collection := coll_name m in
  match db with
  | None => mk_outcome (Err TypeError) db []
  | Some d =>
      match to_oid id_str with
      | Err e => mk_outcome (Err e) db []
      | Ok oid =>
          let '(deleted_count, d') := delete_one d collection oid in
          let log := [DeleteOne collection oid] in
          if (deleted_count =? 0)%nat
          then mk_outcome (Err (HTTPException 404 "Not found")) (Some d') log
          else mk_outcome (Ok (<["deleted" := VBool true]> ∅)) (Some d') log
      end
  end.

(** ** The keyword ranking endpoint *)

Record AIQuery := mk_AIQuery {
  question : string;
  focus : option string
}.

Record response := mk_response {
  answer : string;
  results : gmap string (list doc)
}.

(** [d.get(key, dflt)] *)
Definition get (d : doc) (key : string) (dflt : value) : value :=
  default dflt (d !! key).

(** The strings an argument of [str.join] yields: the elements of a list,
    the characters of a string; anything else is not iterable. *)
Definition iter_strs (v : value) : result (list string) :=
  match v with
  | VList l => Ok l
  | VStr s => Ok (PyStr.chars s)
  | _ => Err TypeError
  end.

(** [sep.join(v)] *)
Definition join_iter (sep : string) (v : value) : result string :=
  l ← iter_strs v; Ok (PyStr.join sep l).

Definition as_str (v : value) : result string :=
  match v with
  | VStr s => Ok s
  | _ => Err TypeError
  end.

(** [sep.join([v1, ..., vn])]: every element has to be a string. *)
Definition join_values (sep : string) (vs : list value) : result string :=
  l ← traverse as_str vs; Ok (PyStr.join sep l).

(** [v[:n]] *)
Definition slice_to (n : nat) (v : value) : result value :=
  match v with
  | VList l => Ok (VList (firstn n l))
  | VStr s => Ok (VStr (PyStr.take n s))
  | _ => Err TypeError
  end.

(** The inner function of [ai_query]; [q] is the lower-cased question. *)
Definition rank_text (q : string) (text : string) : nat :=
  fold_left
    (fun score token =>
       if negb (String.eqb token "") && PyStr.contains token (PyStr.lower text)
       then (score + 1)%nat else score)
    (PyStr.split q) 0%nat.

(** The sort keys of the three kinds, before [rank_text] is applied. *)
Definition project_text (d : doc) : result string :=
  tech ← join_iter " " (get d "tech_stack" (VList []));
  high ← join_iter " " (get d "highlights" (VList []));
  join_values " " [get d "title" (VStr ""); get d "description" (VStr ""); VStr tech; VStr high].

Definition certificate_text (d : doc) : result string :=
  join_values " " [get d "title" (VStr ""); get d "organization" (VStr "");
                   get d "skill_category" (VStr ""); get d "reflection" (VStr "")].

Definition journal_text (d : doc) : result string :=
  tags ← join_iter " " (get d "tags" (VList []));
  join_values " " [get d "title" (VStr ""); get d "content_markdown" (VStr ""); VStr tags].

Definition score (q : string) (text : doc -> result string) (d : doc) : result nat :=
  t ← text d; Ok (rank_text q t).

(** Sorting.  [sorted(l, key=k, reverse=True)] computes the key of every
    element once and sorts stably: elements with equal keys keep their
    order, also under [reverse].  A stable sort has one possible outcome,
    which insertion from the right computes. *)
Fixpoint insert_desc {A} (key : A -> nat) (x : A) (l : list A) : list A :=
  match l with
  | [] => [x]
  | y :: l' => if (key x <? key y)%nat then y :: insert_desc key x l' else x :: l
  end.

Definition sort_desc {A} (key : A -> nat) (l : list A) : list A :=
  foldr (insert_desc key) [] l.

Definition sorted_reverse {A} (key : A -> result nat) (l : list A) : result (list A) :=
  keyed ← traverse (fun x => k ← key x; Ok (k, x)) l;
  Ok (map snd (sort_desc fst keyed)).

(** [list(db[name].find()) if db else []] *)
Definition find_all (db : option database) (name : string) : list doc :=
  match db with
  | Some d => collection d name
  | None => []
  end.

(** One searched kind: rank its documents and keep the first five. *)
Definition search_kind (db : option database) (q : string) (m : model_cls)
    (text : doc -> result string) : result (list doc) :=
  let docs := find_all db (coll_name m) in
  ranked ← sorted_reverse (score q text) (map as_serializable docs);
  Ok (firstn 5 ranked).

Definition member (s : string) (l : list string) : bool :=
  existsb (String.eqb s) l.

(** [results.get(key)] in a condition, then [results[key][0]]. *)
Definition top_of (res : gmap string (list doc)) (key : string) : option doc :=
  match res !! key with
  | Some (top :: _) => Some top
  | _ => None
  end.

Definition project_sentence (top : doc) : result string :=
  tech ← join_iter ", " (get top "tech_stack" (VList []));
  Ok ("Top project: " ++ py_str (get top "title" VNull) ++ " — tech: " ++ tech ++ ". ").

Definition certificate_sentence (topc : doc) : result string :=
  Ok ("Recent certificate: " ++ py_str (get topc "title" VNull) ++ " in "
      ++ py_str (get topc "skill_category" VNull) ++ ". ").

Definition journal_sentence (topj : doc) : result string :=
  first3 ← slice_to 3 (get topj "tags" (VList []));
  tags ← join_iter ", " first3;
  Ok ("Learning focus: " ++ tags ++ ".").

(** [summary += sentence(top)] when the kind has a first result. *)
Definition add_sentence (summary : string) (top : option doc)
    (sentence : doc -> result string) : result string :=
  match top with
  | Some t => s ← sentence t; Ok (summary ++ s)
  | None => Ok summary
  end.

(** POST /ai/query *)
Definition ai_query (db : option database) (payload : AIQuery) : result response :=
  let q := PyStr.lower (question payload) in
  let focus := PyStr.lower (default "" (focus payload)) in
  let results : gmap string (list doc) := ∅ in
  results ←
    (if member focus [""; "project"; "projects"]
     then top5 ← search_kind db q Project project_text; Ok (<["projects" := top5]> results)
     else Ok results);
  results ←
    (if member focus [""; "certificate"; "certificates"]
     then top5 ← search_kind db q Certificate certificate_text; Ok (<["certificates" := top5]> results)
     else Ok results);
  results ←
    (if member focus [""; "journal"]
     then top5 ← search_kind db q JournalEntry journal_text; Ok (<["journal" := top5]> results)
     else Ok results);
  let summary := "" in
  summary ← add_sentence summary (top_of results "projects") project_sentence;
  summary ← add_sentence summary (top_of results "certificates") certificate_sentence;
  summary ← add_sentence summary (top_of results "journal") journal_sentence;
  Ok {| answer := PyStr.strip summary; results := results |}.

(** ** Records as the schemas declare them *)

Definition text_field (d : doc) (k : string) : bool :=
  match d !! k with
  | None | Some (VStr _) => true
  | _ => false
  end.

Definition list_field (d : doc) (k : string) : bool :=
  match d !! k with
  | None | Some (VList _) => true
  | _ => false
  end.

Definition text_of (d : doc) (k : string) : string :=
  match d !! k with
  | Some (VStr s) => s
  | _ => ""
  end.

Definition list_of (d : doc) (k : string) : list string :=
  match d !! k with
  | Some (VList l) => l
  | _ => []
  end.

(** A Project record: the four searched fields, where present, hold what
    [schemas.Project] declares. *)
Definition project_record (d : doc) : bool :=
  text_field d "title" && text_field d "description"
  && list_field d "tech_stack" && list_field d "highlights".

(** The search text of a Project, in the words of the specification. *)
Definition project_search_text (d : doc) : string :=
  PyStr.join " " [text_of d "title"; text_of d "description";
                  PyStr.join " " (list_of d "tech_stack");
                  PyStr.join " " (list_of d "highlights")].

(** The number of tokens of the lower-cased question that occur in the
    lower-cased text, a repeated token counting each time. *)
Definition matching_tokens (question text : string) : nat :=
  length (List.filter (fun t => PyStr.contains t (PyStr.lower text))
            (PyStr.split (PyStr.lower question))).

Definition data_pipeline : doc :=
  <["_id" := VOid "64b7f1a2c3d4e5f607182930"]>
    (<["title" := VStr "Data Pipeline"]> (<["tech_stack" := VList ["Python"; "SQL"]]> ∅)).

Definition game_engine : doc :=
  <["_id" := VOid "64b7f1a2c3d4e5f607182931"]>
    (<["title" := VStr "Game Engine"]> (<["tech_stack" := VList ["C++"]]> ∅)).

Definition two_projects (first second : doc) : option database :=
  Some (<["project" := [first; second]]> ∅).

(** The response when only projects are stored and Data Pipeline ranks
    first. *)
Definition ranked_first (projects : list doc) : response :=
  {| answer := "Top project: Data Pipeline — tech: Python, SQL.";
     results := <["projects" := projects]> (<["certificates" := []]> (<["journal" := []]> ∅)) |}.


(** ** Reading a response *)

(** The names [focus] may take for each key of [results], the collection
    searched for it and its search text, as [ai_query] lists them. *)
Definition searched_kinds : list (string * list string * model_cls * (doc -> result string)) :=
  [("projects", [""; "project"; "projects"], Project, project_text);
   ("certificates", [""; "certificate"; "certificates"], Certificate, certificate_text);
   ("journal", [""; "journal"], JournalEntry, journal_text)].

(** What [results] holds under a key: the first five ranked documents when
    the kind is searched, nothing otherwise. *)
Definition searched (db : option database) (q f : string) (names : list string)
    (m : model_cls) (text : doc -> result string) (entry : option (list doc)) : Prop :=
  if member f names
  then exists top5, search_kind db q m text = Ok top5 /\ entry = Some top5
  else entry = None.

Definition first_of (entry : option (list doc)) : option doc :=
  match entry with
  | Some (top :: _) => Some top
  | _ => None
  end.

(** The score of a candidate as a number (0 where the key raises). *)
Definition rank (q : string) (text : doc -> result string) (d : doc) : nat :=
  match score q text d with
  | Ok k => k
  | Err _ => 0%nat
  end.

(** The order of a list sorted by key, largest first. *)
Definition descending {A} (key : A -> nat) (a b : A) : Prop := (key b <= key a)%nat.

(** [focus] as [ai_query] compares it: unset counts as empty, and case is
    folded. *)
Definition focus_name (p : AIQuery) : string :=
  PyStr.lower (default "" (focus p)).

Definition aws_certificate : doc :=
  <["_id" := VOid "64b7f1a2c3d4e5f607182940"]>
    (<["title" := VStr "AWS Cloud Practitioner"]>
       (<["organization" := VStr "Amazon"]>
          (<["skill_category" := VStr "Cloud"]> (<["reflection" := VStr ""]> ∅)))).

Definition rust_notes : doc :=
  <["_id" := VOid "64b7f1a2c3d4e5f607182950"]>
    (<["title" := VStr "Borrow checker notes"]>
       (<["content_markdown" := VStr "Lifetimes, again."]>
          (<["tags" := VList ["rust"; "memory"; "lifetimes"; "traits"]]> ∅))).

(** A store with two projects, one certificate and one journal entry. *)
Definition portfolio : option database :=
  Some (<["project" := [game_engine; data_pipeline]]>
          (<["certificate" := [aws_certificate]]>
             (<["journalentry" := [rust_notes]]> ∅))).

(** ** The sentences of the summary, as the specification words them *)

Definition project_line (top : doc) (tech : list string) : string :=
  "Top project: " ++ py_str (get top "title" VNull) ++ " — tech: "
  ++ PyStr.join ", " tech ++ ".".

Definition certificate_line (topc : doc) : string :=
  "Recent certificate: " ++ py_str (get topc "title" VNull) ++ " in "
  ++ py_str (get topc "skill_category" VNull) ++ ".".

Definition journal_line (tags : list string) : string :=
  "Learning focus: " ++ PyStr.join ", " tags ++ ".".

(** The sentence a kind contributes: one, built from the first document of
    its results, when that list is not empty; none otherwise. *)
Definition project_sentences (entry : option (list doc)) (ss : list string) : Prop :=
  match entry with
  | Some (top :: _) =>
      exists tech, iter_strs (get top "tech_stack" (VList [])) = Ok tech
                   /\ ss = [project_line top tech]
  | _ => ss = []
  end.

Definition certificate_sentences (entry : option (list doc)) (ss : list string) : Prop :=
  match entry with
  | Some (topc :: _) => ss = [certificate_line topc]
  | _ => ss = []
  end.

Definition journal_sentences (entry : option (list doc)) (ss : list string) : Prop :=
  match entry with
  | Some (topj :: _) =>
      exists tags, iter_strs (get topj "tags" (VList [])) = Ok tags
                   /\ ss = [journal_line (firstn 3 tags)]
  | _ => ss = []
  end.

(** A string that neither starts nor ends with whitespace. *)
Definition tight (s : string) : Prop :=
  PyStr.starts_token s = true /\ PyStr.rstrip s = s.

(** What [ai_query] answers on [portfolio] to the question "python data"
    without a focus, and to "cloud" under the focus "Certificates". *)
Definition portfolio_response : response :=
  {| answer := "Top project: Data Pipeline — tech: Python, SQL. Recent certificate: AWS Cloud Practitioner in Cloud. Learning focus: rust, memory, lifetimes.";
     results := <["projects" := [as_serializable data_pipeline; as_serializable game_engine]]>
                  (<["certificates" := [as_serializable aws_certificate]]>
                     (<["journal" := [as_serializable rust_notes]]> ∅)) |}.

Definition certificates_response : response :=
  {| answer := "Recent certificate: AWS Cloud Practitioner in Cloud.";
     results := <["certificates" := [as_serializable aws_certificate]]> ∅ |}.

(** ** Summaries when only certificates match *)

(** No project and no journal entry contains a token of the question, and
    some certificate does. *)
Definition only_certificates_match (db : option database) (q : string) : Prop :=
  Forall (fun d => score q project_text (as_serializable d) = Ok 0%nat)
    (find_all db (coll_name Project))
  /\ Forall (fun d => score q journal_text (as_serializable d) = Ok 0%nat)
       (find_all db (coll_name JournalEntry))
  /\ Exists (fun d => exists k, score q certificate_text (as_serializable d) = Ok (S k))
       (find_all db (coll_name Certificate)).

(** A store with one project and one certificate. *)
Definition engine_and_certificate : option database :=
  Some (<["project" := [game_engine]]> (<["certificate" := [aws_certificate]]> ∅)).

Definition engine_and_certificate_response : response :=
  {| answer := "Top project: Game Engine — tech: C++. Recent certificate: AWS Cloud Practitioner in Cloud.";
     results := <["projects" := [as_serializable game_engine]]>
                  (<["certificates" := [as_serializable aws_certificate]]>
                     (<["journal" := []]> ∅)) |}.

(** A store that holds a certificate and nothing else. *)
Definition certificates_only : option database :=
  Some (<["certificate" := [aws_certificate]]> ∅).

Definition certificates_only_response : response :=
  {| answer := "Recent certificate: AWS Cloud Practitioner in Cloud.";
     results := <["projects" := []]>
                  (<["certificates" := [as_serializable aws_certificate]]>
                     (<["journal" := []]> ∅)) |}.

(** ** Listing and filtering *)

(** Some element of the list field contains [v], case folded. *)
Definition mentions (v field : string) (d : doc) : bool :=
  existsb (fun x => PyStr.contains (PyStr.lower v) (PyStr.lower x)) (list_of d field).

(** The constraint a query parameter puts on a list field: none when the
    parameter is absent or empty. *)
Definition wanted (param : option string) (field : string) (d : doc) : bool :=
  match param with
  | Some v => if String.eqb v "" then true else mentions v field d
  | None => true
  end.

(** The parameter, when given, has no regular-expression metacharacter. *)
Definition plain (param : option string) : bool :=
  match param with
  | Some v => literal v
  | None => true
  end.

Definition bare_project : doc :=
  <["_id" := VOid "64b7f1a2c3d4e5f607182932"]>
    (<["title" := VStr "Sketches"]> (<["highlights" := VList []]> ∅)).

Definition fast_project : doc :=
  <["_id" := VOid "64b7f1a2c3d4e5f607182933"]>
    (<["title" := VStr "Renderer"]>
       (<["tech_stack" := VList ["Rust"; "wgpu"]]>
          (<["highlights" := VList ["Fast"; "Written in Rust"]]> ∅))).

Definition project_store : database :=
  <["project" := [bare_project; fast_project]]> ∅.

(** ** Profiles *)

Definition older_profile : doc :=
  <["_id" := VOid "64b7f1a2c3d4e5f607182901"]>
    (<["name" := VStr "Lee Willemse"]>
       (<["tagline" := VStr "Student"]>
          (<["created_at" := VDatetime (mk_datetime 2024 1 15 9 30 0 0)]> ∅))).

Definition newer_profile : doc :=
  <["_id" := VOid "64b7f1a2c3d4e5f607182902"]>
    (<["name" := VStr "Lee Willemse"]>
       (<["tagline" := VStr "Engineer"]>
          (<["created_at" := VDatetime (mk_datetime 2025 6 1 12 0 0 0)]> ∅))).

Definition profile_store : database :=
  <["profile" := [older_profile; newer_profile]]> ∅.

(** ** Identifiers *)

(** The store keeps identifiers unique within a collection. *)
Definition unique_ids (docs : list doc) : Prop :=
  forall oid, (length (List.filter (has_id oid) docs) <= 1)%nat.

Definition fast_project_id : string := "64b7f1a2c3d4e5f607182933".

(** A PATCH body that also tries to set the timestamp. *)
Definition retitle : doc :=
  <["title" := VStr "Renderer 2"]>
    (<["updated_at" := VStr "1999-01-01"]> ∅).

Definition noon : datetime := mk_datetime 2025 6 1 12 0 0 0.

(** ** Stores that follow the schemas *)

Definition certificate_record (d : doc) : bool :=
  text_field d "title" && text_field d "organization"
  && text_field d "skill_category" && text_field d "reflection".

Definition journal_record (d : doc) : bool :=
  text_field d "title" && text_field d "content_markdown" && list_field d "tags".

(** The searched fields of every stored project, certificate and journal
    entry hold what the schemas declare. *)
Definition schema_store (db : option database) : Prop :=
  Forall (fun d => project_record d = true) (find_all db (coll_name Project))
  /\ Forall (fun d => certificate_record d = true) (find_all db (coll_name Certificate))
  /\ Forall (fun d => journal_record d = true) (find_all db (coll_name JournalEntry)).

(** ** Identifiers and mappings the store takes *)



(** A field name [$set] takes as a plain top-level field: not empty, not
    the identifier, no dot, no leading dollar, no NUL. *)
Definition plain_key (k : string) : bool :=
  negb (String.eqb k "") && negb (String.eqb k "_id")
  && negb (PyStr.startswith "$" k) && negb (PyStr.has_char "." k)
  && negb (PyStr.has_char (ascii_of_nat 0) k).

(** A value the store can encode: an integer has to fit 64 bits. *)
Definition encodable (v : value) : bool :=
  match v with
  | VInt z => ((- 2 ^ 63 <=? z) && (z <? 2 ^ 63))%Z
  | _ => true
  end.

(** A mapping of plain top-level fields to values the store can encode. *)
Definition storable (data : doc) : Prop :=
  map_Forall (fun k v => plain_key k = true /\ encodable v = true) data.

(** A clock reading with half a millisecond. *)
Definition half_past : datetime := mk_datetime 2025 6 1 12 0 0 1500.

(** The value stored under a field of the first document with the id,
    after a call. *)
Definition stored_field {A} (out : outcome A) (name oid key : string) : option value :=
  d ← store out; x ← find_one d name oid; x !! key.

(** The value of a field of the record a call returned. *)
Definition returned_field (out : outcome (option doc)) (key : string) : option value :=
  match returned out with
  | Ok (Some record) => record !! key
  | _ => None
  end.

(** * The remaining routes and helpers *)

(** ** Routes that delegate to the generic helpers *)

(** PATCH /profile/{id} *)
Definition patch_profile (db : option database) (id : string) (updates : doc)
    (now : datetime) : outcome (option doc) :=
  update_item db Profile id updates now.


(** DELETE /projects/{id} *)
Definition remove_project (db : option database) (id : string) : outcome doc :=
  delete_item db Project id.

(** PATCH /certificates/{id} *)
Definition update_cert (db : option database) (id : string) (updates : doc)
    (now : datetime) : outcome (option doc) :=
  update_item db Certificate id updates now.

(** DELETE /certificates/{id} *)
Definition remove_cert (db : option database) (id : string) : outcome doc :=
  delete_item db Certificate id.

(** PATCH /journal/{id} *)
Definition update_journal (db : option database) (id : string) (updates : doc)
    (now : datetime) : outcome (option doc) :=
  update_item db JournalEntry id updates now.

(** DELETE /journal/{id} *)
Definition remove_journal (db : option database) (id : string) : outcome doc :=
  delete_item db JournalEntry id.

Section Routes.
Context {E : RegexEngine}.

(** GET /journal *)
Definition get_journal (db : option database) (tag : option string) : result (list doc) :=
  let filt : filter_doc := ∅ in
  let filt := if given tag then <["tags" := ElemMatchRegex (default "" tag) "i"]> filt else filt in
  list_items db JournalEntry None (Some filt).

(** GET /skills/snapshots *)
Definition get_skill_snapshots (db : option database) : result (list doc) :=
  list_items db SkillSnapshot None None.

(** GET /milestones *)
Definition get_milestones (db : option database) : result (list doc) :=
  list_items db Milestone None None.

End Routes.

(** ** The connectivity diagnostic *)

(** What [test_database] reads of a configured [db]: the value of
    [getattr(db, "name", None)] and what [db.list_collection_names()]
    returns; either may raise instead, with the text [str(e)] of the
    exception. *)
Record db_handle := mk_db_handle {
  handle_name : string + option string;
  collection_names : string + list string
}.

(** GET /test.  [database_url] is what [os.getenv("DATABASE_URL")] reads. *)
Definition test_database (db : option db_handle) (database_url : option string) : doc :=
  let response : doc :=
    <["backend" := VStr "✅ Running"]>
      (<["database" := VStr "❌ Not Available"]>
         (<["database_url" := VStr "❌ Not Set"]>
            (<["database_name" := VStr "❌ Not Set"]>
               (<["connection_status" := VStr "Not Connected"]>
                  (<["collections" := VList []]> ∅))))) in
  match db with
  | None => response
  | Some h =>
      let response := <["database" := VStr "✅ Available"]> response in
      let response :=
        <["database_url" := VStr (if given database_url then "✅ Set" else "❌ Not Set")]>
          response in
      match handle_name h with
      | inl msg => <["database" := VStr ("❌ Error: " ++ PyStr.take 80 msg)]> response
      | inr name =>
          let response :=
            <["database_name" := VStr (if given name then default "" name else "✅ Connected")]>
              response in
          let response := <["connection_status" := VStr "Connected"]> response in
          match collection_names h with
          | inr names =>
              let response := <["collections" := VList (firstn 20 names)]> response in
              <["database" := VStr "✅ Connected & Working"]> response
          | inl msg =>
              <["database" := VStr ("⚠️ Connected but Error: " ++ PyStr.take 80 msg)]> response
          end
      end
  end.

(** ** Exceptions of the ranking endpoint *)

(** A computation that, when it raises, raises [TypeError]. *)
Definition raises_type_error_only {A} (r : result A) : Prop :=
  forall e, r = Err e -> e = TypeError.

(** A project whose title the caller has set to [null]. *)
Definition null_title : doc := <["title" := VNull]> ∅.

Definition python_notes : doc :=
  <["_id" := VOid "64b7f1a2c3d4e5f607182951"]>
    (<["title" := VStr "Type hints"]>
       (<["content_markdown" := VStr "Protocols and generics."]>
          (<["tags" := VList ["Python"; "Typing"]]> ∅))).

Definition journal_store : database :=
  <["journalentry" := [rust_notes; python_notes]]> ∅.

(** A store handle whose listing fails. *)
Definition failing_handle : db_handle :=
  {| handle_name := inr (Some "portfolio");
     collection_names := inl "connection refused" |}.

(** ** Matching field by field *)

Definition no_space (t : string) : bool :=
  forallb (fun c => negb (PyStr.is_space c)) (list_ascii_of_string t).

(** The token occurs in the value, case folded. *)
Definition occurs (t x : string) : bool := PyStr.contains t (PyStr.lower x).

(** The token occurs in the title, in the description, in one technology
    or in one highlight of the project. *)
Definition occurs_in_project (t : string) (d : doc) : bool :=
  occurs t (text_of d "title") || occurs t (text_of d "description")
  || existsb (occurs t) (list_of d "tech_stack")
  || existsb (occurs t) (list_of d "highlights").

(** Every character of the string is an ASCII character. *)
Definition is_ascii (s : string) : bool :=
  forallb (fun c => (nat_of_ascii c <? 128)%nat) (list_ascii_of_string s).

(** * Properties *)

(** Closed equations are checked by evaluation. *)
Ltac by_evaluation :=
  match goal with
  | |- ?l = ?r => vm_cast_no_check (@eq_refl _ r)
  end.


Lemma split_tokens_nonempty (s : string) : Forall (fun t => t <> "") (PyStr.split s).
Proof.
  induction s as [|c s IH]; simpl; [constructor|].
  destruct (PyStr.is_space c); [exact IH|].
  destruct (PyStr.starts_token s).
  - destruct (PyStr.split s) as [|t ts]; repeat constructor; try discriminate.
    inversion IH; assumption.
  - constructor; [discriminate | exact IH].
Qed.

Lemma count_loop (f : string -> bool) (l : list string) (n : nat) :
  fold_left (fun score token => if f token then (score + 1)%nat else score) l n
  = (n + length (List.filter f l))%nat.
Proof.
  revert n; induction l as [|t l IH]; intros n; simpl; [lia|].
  rewrite IH. destruct (f t); simpl; lia.
Qed.

Lemma rank_text_count (q text : string) :
  rank_text q text
  = length (List.filter (fun t => PyStr.contains t (PyStr.lower text)) (PyStr.split q)).
Proof.
  unfold rank_text. rewrite count_loop. simpl.
  f_equal. 
  pose proof (split_tokens_nonempty q) as H.
  induction H as [|t l Ht _ IH]; simpl; [reflexivity|].
  destruct (String.eqb_spec t ""); [contradiction|]. simpl.
  rewrite IH. reflexivity.
Qed.

Lemma as_serializable_lookup (d : doc) (k : string) :
  k <> "_id" -> k <> "id" ->
  as_serializable d !! k = isoformat_value <$> (d !! k).
Proof.
  intros H1 H2. unfold as_serializable.
  destruct (is_empty d) eqn:He.
  - unfold is_empty in He. destruct (map_to_list d) eqn:Hl; [|discriminate].
    apply map_to_list_empty_iff in Hl. subst d. rewrite lookup_empty. reflexivity.
  - destruct (d !! "_id") as [v|] eqn:Hid.
    + destruct (truthy v).
      * rewrite lookup_fmap, lookup_insert_ne, lookup_delete_ne by congruence. reflexivity.
      * rewrite lookup_fmap. reflexivity.
    + rewrite lookup_fmap. reflexivity.
Qed.

Lemma get_text (d : doc) (k : string) :
  k <> "_id" -> k <> "id" -> text_field d k = true ->
  get (as_serializable d) k (VStr "") = VStr (text_of d k).
Proof.
  intros H1 H2 Ht. unfold get, text_field, text_of in *.
  rewrite as_serializable_lookup by assumption.
  destruct (d !! k) as [[]|]; simpl in *; congruence.
Qed.

Lemma get_list (d : doc) (k : string) :
  k <> "_id" -> k <> "id" -> list_field d k = true ->
  get (as_serializable d) k (VList []) = VList (list_of d k).
Proof.
  intros H1 H2 Ht. unfold get, list_field, list_of in *.
  rewrite as_serializable_lookup by assumption.
  destruct (d !! k) as [[]|]; simpl in *; congruence.
Qed.

Lemma project_text_record (d : doc) :
  project_record d = true ->
  project_text (as_serializable d) = Ok (project_search_text d).
Proof.
  unfold project_record. rewrite !andb_true_iff. intros [[[Ht Hd] Hs] Hh].
  unfold project_text.
  rewrite (get_list d "tech_stack"), (get_list d "highlights"),
    (get_text d "title"), (get_text d "description") by (assumption || discriminate).
  reflexivity.
Qed.

(** C1: the score [ai_query] ranks a Project by (the sort key, computed on
    the serialized record with the lower-cased question) is the number of
    whitespace-separated tokens of the lower-cased question that occur in
    the lower-cased search text, the space-joined title, description,
    tech_stack and highlights, each occurrence of a repeated token counting.
    The question "python data" gives the project Data Pipeline with stack
    Python, SQL the score 2 and the project Game Engine with stack C++ the
    score 0, and the first comes before the second in the output, in
    whichever order the store returns the two. *)
Theorem C1_ranking_score :
  (forall (question : string) (d : doc),
      project_record d = true ->
      score (PyStr.lower question) project_text (as_serializable d)
      = Ok (matching_tokens question (project_search_text d)))
  /\ score (PyStr.lower "python data") project_text (as_serializable data_pipeline) = Ok 2%nat
  /\ score (PyStr.lower "python data") project_text (as_serializable game_engine) = Ok 0%nat
  /\ ai_query (two_projects data_pipeline game_engine) (mk_AIQuery "python data" None)
     = Ok (ranked_first [as_serializable data_pipeline; as_serializable game_engine])
  /\ ai_query (two_projects game_engine data_pipeline) (mk_AIQuery "python data" None)
     = Ok (ranked_first [as_serializable data_pipeline; as_serializable game_engine]).
Proof.
  split; [|split; [|split; [|split]]].
  - intros question d Hd. unfold score.
    rewrite (project_text_record d Hd). simpl.
    rewrite rank_text_count. reflexivity.
  - by_evaluation.
  - by_evaluation.
  - by_evaluation.
  - by_evaluation.
Qed.

Lemma C1_ranking_score_witness :
  project_record data_pipeline = true
  /\ score (PyStr.lower "Python DATA data") project_text (as_serializable data_pipeline)
     = Ok (matching_tokens "Python DATA data" (project_search_text data_pipeline))
  /\ matching_tokens "Python DATA data" (project_search_text data_pipeline) = 3%nat.
Proof.
  split; [by_evaluation|]. split; [|by_evaluation].
  apply (proj1 C1_ranking_score). by_evaluation.
Defined.

(** ** [ai_query], step by step *)

Lemma bind_ok {A B} (r : result A) (k : A -> result B) (b : B) :
  (r ≫= k) = Ok b -> exists a, r = Ok a /\ k a = Ok b.
Proof. destruct r as [a|e]; simpl; [eauto | discriminate]. Qed.

Lemma ai_query_inv (db : option database) (p : AIQuery) (r : response) :
  ai_query db p = Ok r ->
  let q := PyStr.lower (question p) in
  let f := PyStr.lower (default "" (focus p)) in
  exists s1 s2 s3,
    searched db q f [""; "project"; "projects"] Project project_text (results r !! "projects")
    /\ searched db q f [""; "certificate"; "certificates"] Certificate certificate_text
         (results r !! "certificates")
    /\ searched db q f [""; "journal"] JournalEntry journal_text (results r !! "journal")
    /\ (forall k, k <> "projects" -> k <> "certificates" -> k <> "journal" -> results r !! k = None)
    /\ add_sentence "" (first_of (results r !! "projects")) project_sentence = Ok s1
    /\ add_sentence s1 (first_of (results r !! "certificates")) certificate_sentence = Ok s2
    /\ add_sentence s2 (first_of (results r !! "journal")) journal_sentence = Ok s3
    /\ answer r = PyStr.strip s3.
Proof.
  intros H q f. unfold ai_query in H. unfold searched. fold q f in H.
  apply bind_ok in H as (r1 & H1 & H).
  apply bind_ok in H as (r2 & H2 & H).
  apply bind_ok in H as (r3 & H3 & H).
  apply bind_ok in H as (s1 & S1 & H).
  apply bind_ok in H as (s2 & S2 & H).
  apply bind_ok in H as (s3 & S3 & H).
  injection H as <-. simpl. exists s1, s2, s3.
  unfold top_of in S1, S2, S3. unfold first_of.
  assert (E1 : r1 !! "certificates" = None /\ r1 !! "journal" = None
               /\ forall k, k <> "projects" -> r1 !! k = None).
  { destruct (member f [""; "project"; "projects"]).
    - apply bind_ok in H1 as (t & _ & H1). injection H1 as <-.
      rewrite !lookup_insert_ne by discriminate. repeat split; try apply lookup_empty.
      intros k Hk. rewrite lookup_insert_ne by congruence. apply lookup_empty.
    - injection H1 as <-. repeat split; intros; apply lookup_empty. }
  destruct E1 as (E1c & E1j & E1o).
  assert (P1 : if member f [""; "project"; "projects"]
               then exists top5, search_kind db q Project project_text = Ok top5
                                 /\ r1 !! "projects" = Some top5
               else r1 !! "projects" = None).
  { destruct (member f [""; "project"; "projects"]).
    - apply bind_ok in H1 as (t & Ht & H1). injection H1 as <-.
      exists t. split; [exact Ht | apply lookup_insert_eq].
    - injection H1 as <-. apply lookup_empty. }
  assert (E2 : r2 !! "projects" = r1 !! "projects" /\ r2 !! "journal" = None
               /\ forall k, k <> "projects" -> k <> "certificates" -> r2 !! k = None).
  { destruct (member f [""; "certificate"; "certificates"]).
    - apply bind_ok in H2 as (t & _ & H2). injection H2 as <-.
      rewrite !lookup_insert_ne by discriminate. repeat split; try assumption.
      intros k Hk Hk'. rewrite lookup_insert_ne by congruence. auto.
    - injection H2 as <-. repeat split; auto. }
  destruct E2 as (E2p & E2j & E2o).
  assert (P2 : if member f [""; "certificate"; "certificates"]
               then exists top5, search_kind db q Certificate certificate_text = Ok top5
                                 /\ r2 !! "certificates" = Some top5
               else r2 !! "certificates" = None).
  { destruct (member f [""; "certificate"; "certificates"]).
    - apply bind_ok in H2 as (t & Ht & H2). injection H2 as <-.
      exists t. split; [exact Ht | apply lookup_insert_eq].
    - injection H2 as <-. assumption. }
  assert (E3 : r3 !! "projects" = r2 !! "projects" /\ r3 !! "certificates" = r2 !! "certificates"
               /\ forall k, k <> "projects" -> k <> "certificates" -> k <> "journal" -> r3 !! k = None).
  { destruct (member f [""; "journal"]).
    - apply bind_ok in H3 as (t & _ & H3). injection H3 as <-.
      rewrite !lookup_insert_ne by discriminate. repeat split.
      intros k Hk Hk' Hk''. rewrite lookup_insert_ne by congruence. auto.
    - injection H3 as <-. repeat split; auto. }
  destruct E3 as (E3p & E3c & E3o).
  assert (P3 : if member f [""; "journal"]
               then exists top5, search_kind db q JournalEntry journal_text = Ok top5
                                 /\ r3 !! "journal" = Some top5
               else r3 !! "journal" = None).
  { destruct (member f [""; "journal"]).
    - apply bind_ok in H3 as (t & Ht & H3). injection H3 as <-.
      exists t. split; [exact Ht | apply lookup_insert_eq].
    - injection H3 as <-. assumption. }
  rewrite <- E2p, <- E3p in P1. rewrite <- E3c in P2.
  repeat split; assumption.
Qed.

(** ** The stable descending sort *)

Section Sorting.
Context {A : Type} (key : A -> nat).

Lemma insert_desc_perm (x : A) (l : list A) : Permutation (insert_desc key x l) (x :: l).
Proof.
  induction l as [|y l IH]; simpl; [reflexivity|].
  destruct (key x <? key y)%nat; [|reflexivity].
  rewrite IH. apply perm_swap.
Qed.

Lemma sort_desc_perm (l : list A) : Permutation (sort_desc key l) l.
Proof.
  induction l as [|x l IH]; simpl; [reflexivity|].
  rewrite insert_desc_perm. constructor. exact IH.
Qed.

Lemma insert_desc_sorted (x : A) (l : list A) :
  StronglySorted (descending key) l -> StronglySorted (descending key) (insert_desc key x l).
Proof.
  induction 1 as [|y l Hs IH Hy]; simpl.
  - repeat constructor.
  - destruct (Nat.ltb_spec (key x) (key y)) as [Hlt|Hge].
    + constructor; [exact IH|].
      rewrite insert_desc_perm. constructor; [unfold descending; lia | exact Hy].
    + constructor; [constructor; assumption|].
      constructor; [exact Hge|].
      eapply Forall_impl; [exact Hy|]. unfold descending. intros z Hz. lia.
Qed.

Lemma sort_desc_sorted (l : list A) : StronglySorted (descending key) (sort_desc key l).
Proof.
  induction l as [|x l IH]; simpl; [constructor|].
  apply insert_desc_sorted, IH.
Qed.

Lemma insert_desc_stable (n : nat) (x : A) (l : list A) :
  List.filter (fun y => key y =? n)%nat (insert_desc key x l)
  = List.filter (fun y => key y =? n)%nat (x :: l).
Proof.
  induction l as [|y l IH]; [reflexivity|].
  cbn [insert_desc].
  destruct (Nat.ltb_spec (key x) (key y)) as [Hlt|Hge]; [|reflexivity].
  cbn [List.filter] in *. rewrite IH.
  destruct (Nat.eqb_spec (key x) n), (Nat.eqb_spec (key y) n); try reflexivity. lia.
Qed.

Lemma sort_desc_stable (n : nat) (l : list A) :
  List.filter (fun y => key y =? n)%nat (sort_desc key l)
  = List.filter (fun y => key y =? n)%nat l.
Proof.
  induction l as [|x l IH]; [reflexivity|].
  cbn [sort_desc foldr]. fold (sort_desc key l).
  rewrite insert_desc_stable. cbn [List.filter]. rewrite IH. reflexivity.
Qed.

Lemma sort_desc_ties (c : nat) (l : list A) :
  Forall (fun x => key x = c) l -> sort_desc key l = l.
Proof.
  induction 1 as [|x l Hx Hl IH]; [reflexivity|].
  cbn [sort_desc foldr]. fold (sort_desc key l). rewrite IH.
  destruct Hl as [|y l Hy Hl]; [reflexivity|].
  simpl. rewrite Hx, Hy, Nat.ltb_irrefl. reflexivity.
Qed.

End Sorting.

Lemma insert_keyed {A} (f : A -> nat) (x : A) (kl : list (nat * A)) :
  Forall (fun p => fst p = f (snd p)) kl ->
  map snd (insert_desc fst (f x, x) kl) = insert_desc f x (map snd kl).
Proof.
  induction 1 as [|[k y] kl Hk Hkl IH]; [reflexivity|].
  simpl in *. subst k.
  destruct (f x <? f y)%nat; simpl; [rewrite IH|]; reflexivity.
Qed.

Lemma sort_keyed {A} (f : A -> nat) (l : list A) :
  map snd (sort_desc fst (map (fun x => (f x, x)) l)) = sort_desc f l.
Proof.
  induction l as [|x l IH]; [reflexivity|].
  cbn [map sort_desc foldr]. fold (sort_desc (@fst nat A) (map (fun x => (f x, x)) l)).
  fold (sort_desc f l).
  rewrite insert_keyed, IH; [reflexivity|].
  eapply Permutation_Forall; [symmetry; apply sort_desc_perm|].
  apply Forall_map. apply Forall_forall. reflexivity.
Qed.

Lemma traverse_keys {A} (key : A -> result nat) (l : list A) (keyed : list (nat * A)) :
  traverse (fun x => k ← key x; Ok (k, x)) l = Ok keyed ->
  let f := fun x => match key x with Ok k => k | Err _ => 0%nat end in
  keyed = map (fun x => (f x, x)) l /\ Forall (fun x => key x = Ok (f x)) l.
Proof.
  revert keyed. induction l as [|x l IH]; intros keyed H f; simpl in H.
  - injection H as <-. split; constructor.
  - apply bind_ok in H as ([k y] & Hx & H).
    apply bind_ok in H as (ys & Hys & H). injection H as <-.
    apply bind_ok in Hx as (k' & Hk & Hx). injection Hx as <- <-.
    destruct (IH ys Hys) as [-> Hall].
    subst f. simpl. rewrite Hk. split; [reflexivity|].
    constructor; [rewrite Hk; reflexivity | exact Hall].
Qed.

Lemma sorted_reverse_ok {A} (key : A -> result nat) (l ranked : list A) :
  sorted_reverse key l = Ok ranked ->
  let f := fun x => match key x with Ok k => k | Err _ => 0%nat end in
  ranked = sort_desc f l /\ Forall (fun x => key x = Ok (f x)) l.
Proof.
  intros H f. unfold sorted_reverse in H.
  apply bind_ok in H as (keyed & Hk & H). injection H as <-.
  apply traverse_keys in Hk as [-> Hall].
  split; [apply sort_keyed | exact Hall].
Qed.

Lemma search_kind_ok (db : option database) (q : string) (m : model_cls)
    (text : doc -> result string) (top5 : list doc) :
  search_kind db q m text = Ok top5 ->
  let candidates := map as_serializable (find_all db (coll_name m)) in
  top5 = firstn 5 (sort_desc (rank q text) candidates)
  /\ Forall (fun d => score q text d = Ok (rank q text d)) candidates.
Proof.
  intros H candidates. unfold search_kind in H. fold candidates in H.
  apply bind_ok in H as (ranked & Hr & H). injection H as <-.
  apply sorted_reverse_ok in Hr as [-> Hall]. split; [reflexivity | exact Hall].
Qed.

Lemma rank_no_tokens (q : string) (text : doc -> result string) (d : doc) :
  PyStr.split q = [] -> rank q text d = 0%nat.
Proof.
  intros Hq. unfold rank, score. destruct (text d) as [t|e]; simpl; [|reflexivity].
  unfold rank_text. rewrite Hq. reflexivity.
Qed.

Lemma searched_some db q f names m text top5 :
  searched db q f names m text (Some top5) -> search_kind db q m text = Ok top5.
Proof.
  unfold searched. destruct (member f names); [|discriminate].
  intros (t & Ht & [= ->]). exact Ht.
Qed.

(** C2: for every question and every searched kind, the list under the
    kind's key is the first five of the candidates (the serialized documents
    in the order the store returned them) sorted by score, largest first,
    by a stable sort: the ranked list is a permutation of the candidates,
    descending in score, and the candidates of any one score appear in it in
    their retrieval order.  For a question without tokens every candidate
    scores 0 and the list is the first five candidates in store order. *)
Theorem C2_stable_ranking (db : option database) (p : AIQuery) (r : response) :
  ai_query db p = Ok r ->
  forall key names m text top5,
    In (key, names, m, text) searched_kinds ->
    results r !! key = Some top5 ->
    let q := PyStr.lower (question p) in
    let candidates := map as_serializable (find_all db (coll_name m)) in
    exists ranked,
      top5 = firstn 5 ranked
      /\ Forall (fun d => score q text d = Ok (rank q text d)) candidates
      /\ Permutation ranked candidates
      /\ StronglySorted (descending (rank q text)) ranked
      /\ (forall n, List.filter (fun d => rank q text d =? n)%nat ranked
                    = List.filter (fun d => rank q text d =? n)%nat candidates)
      /\ (PyStr.split q = [] ->
          Forall (fun d => rank q text d = 0%nat) candidates /\ top5 = firstn 5 candidates).
Proof.
  intros H key names m text top5 Hin Hkey q candidates.
  destruct (ai_query_inv db p r H) as (s1 & s2 & s3 & Hp & Hc & Hj & _).
  assert (Hs : search_kind db q m text = Ok top5).
  { simpl in Hin. destruct Hin as [E|[E|[E|[]]]]; injection E as <- <- <- <-;
      rewrite Hkey in *; eapply searched_some; eassumption. }
  apply search_kind_ok in Hs as [-> Hall]. fold candidates in Hall |- *.
  exists (sort_desc (rank q text) candidates).
  split; [reflexivity|]. split; [exact Hall|].
  split; [apply sort_desc_perm|]. split; [apply sort_desc_sorted|].
  split; [intros n; apply sort_desc_stable|].
  intros Hq.
  assert (Hz : Forall (fun d => rank q text d = 0%nat) candidates).
  { apply Forall_forall. intros d _. apply rank_no_tokens, Hq. }
  split; [exact Hz|]. rewrite (sort_desc_ties _ 0%nat _ Hz). reflexivity.
Qed.

Lemma C2_stable_ranking_witness :
  let q := PyStr.lower "python data" in
  let candidates := map as_serializable [game_engine; data_pipeline] in
  exists ranked,
    [as_serializable data_pipeline; as_serializable game_engine] = firstn 5 ranked
    /\ Forall (fun d => score q project_text d = Ok (rank q project_text d)) candidates
    /\ Permutation ranked candidates
    /\ StronglySorted (descending (rank q project_text)) ranked
    /\ (forall n, List.filter (fun d => rank q project_text d =? n)%nat ranked
                  = List.filter (fun d => rank q project_text d =? n)%nat candidates)
    /\ (PyStr.split q = [] ->
        Forall (fun d => rank q project_text d = 0%nat) candidates
        /\ [as_serializable data_pipeline; as_serializable game_engine] = firstn 5 candidates).
Proof.
  apply (C2_stable_ranking (two_projects game_engine data_pipeline)
           (mk_AIQuery "python data" None)
           (ranked_first [as_serializable data_pipeline; as_serializable game_engine])
           ltac:(by_evaluation)
           "projects" [""; "project"; "projects"] Project project_text).
  - simpl. auto.
  - by_evaluation.
Defined.

(** ** Which kinds are searched *)

Lemma results_keys (db : option database) (p : AIQuery) (r : response) :
  ai_query db p = Ok r ->
  forall k,
    is_Some (results r !! k) <->
    (k = "projects" /\ member (focus_name p) [""; "project"; "projects"] = true)
    \/ (k = "certificates" /\ member (focus_name p) [""; "certificate"; "certificates"] = true)
    \/ (k = "journal" /\ member (focus_name p) [""; "journal"] = true).
Proof.
  intros H k.
  destruct (ai_query_inv db p r H) as (s1 & s2 & s3 & Hp & Hc & Hj & Ho & _).
  unfold searched in Hp, Hc, Hj. fold (focus_name p) in Hp, Hc, Hj.
  destruct (decide (k = "projects")) as [->|Np].
  { destruct (member (focus_name p) [""; "project"; "projects"]).
    - destruct Hp as (t & _ & ->). split; [auto | eauto].
    - rewrite Hp. split; [intros [? [=]] | intros [[_ [=]]|[[[=] _]|[[=] _]]]]. }
  destruct (decide (k = "certificates")) as [->|Nc].
  { destruct (member (focus_name p) [""; "certificate"; "certificates"]).
    - destruct Hc as (t & _ & ->). split; [auto | eauto].
    - rewrite Hc. split; [intros [? [=]] | intros [[[=] _]|[[_ [=]]|[[=] _]]]]. }
  destruct (decide (k = "journal")) as [->|Nj].
  { destruct (member (focus_name p) [""; "journal"]).
    - destruct Hj as (t & _ & ->). split; [auto | eauto].
    - rewrite Hj. split; [intros [? [=]] | intros [[[=] _]|[[[=] _]|[_ [=]]]]]. }
  rewrite Ho by assumption.
  split; [intros [? [=]] | intros [[? _]|[[? _]|[? _]]]; contradiction].
Qed.

Lemma member_false (f : string) (names : list string) :
  ~ In f names -> member f names = false.
Proof.
  unfold member. induction names as [|x l IH]; simpl; [reflexivity|].
  intros H. destruct (String.eqb_spec f x) as [->|_]; [tauto | apply IH; tauto].
Qed.

Lemma ai_query_unrecognized (db : option database) (p : AIQuery) :
  ~ In (focus_name p) [""; "project"; "projects"; "certificate"; "certificates"; "journal"] ->
  ai_query db p = Ok {| answer := ""; results := ∅ |}.
Proof.
  intros H. unfold ai_query. fold (focus_name p).
  rewrite !member_false by (simpl in *; tauto). reflexivity.
Qed.

(** C3: with [focus] unset or empty the results mapping has an entry for
    each of the three kinds; with one of the names project, projects,
    certificate, certificates, journal (in any case) it has an entry for
    that kind alone, so under focus "certificates" neither
    [results.projects] nor [results.journal] is populated; with any other
    value [ai_query] returns no entry at all, and an empty answer. *)
Theorem C3_focus_selects_kinds (db : option database) (p : AIQuery) :
  (forall r, ai_query db p = Ok r ->
     (focus p = None \/ focus p = Some "" ->
        dom (results r) = {["projects"; "certificates"; "journal"]})
     /\ (focus_name p = "project" \/ focus_name p = "projects" ->
           dom (results r) = {["projects"]})
     /\ (focus_name p = "certificate" \/ focus_name p = "certificates" ->
           dom (results r) = {["certificates"]}
           /\ results r !! "projects" = None /\ results r !! "journal" = None)
     /\ (focus_name p = "journal" -> dom (results r) = {["journal"]}))
  /\ (~ In (focus_name p) [""; "project"; "projects"; "certificate"; "certificates"; "journal"] ->
        ai_query db p = Ok {| answer := ""; results := ∅ |}).
Proof.
  split; [|apply ai_query_unrecognized].
  intros r H. pose proof (results_keys db p r H) as K.
  assert (D : forall names : list string,
             (forall k, is_Some (results r !! k) <-> In k names) ->
             dom (results r) = list_to_set names).
  { intros names Hn. apply set_eq. intros k.
    rewrite elem_of_dom, Hn, elem_of_list_to_set, list_elem_of_In. reflexivity. }
  split; [|split; [|split]].
  - intros Hf.
    assert (E : focus_name p = "") by (unfold focus_name; destruct Hf as [-> | ->]; reflexivity).
    rewrite E in K. rewrite (D ["projects"; "certificates"; "journal"]).
    + simpl. set_solver.
    + intros k. rewrite K. simpl. intuition congruence.
  - intros Hf. rewrite (D ["projects"]); [simpl; set_solver|].
    intros k. rewrite K. destruct Hf as [-> | ->]; simpl; intuition congruence.
  - intros Hf.
    assert (E : forall k, is_Some (results r !! k) <-> In k ["certificates"]).
    { intros k. rewrite K. destruct Hf as [-> | ->]; simpl; intuition congruence. }
    split; [rewrite (D ["certificates"] E); simpl; set_solver|].
    split; apply eq_None_not_Some; rewrite E; simpl; intros [[=]|[]].
  - intros Hf. rewrite (D ["journal"]); [simpl; set_solver|].
    intros k. rewrite K. rewrite Hf; simpl; intuition congruence.
Qed.

(** ** Stripping the summary *)

Lemma append_cons (x : ascii) (a b : string) : String x a ++ b = String x (a ++ b).
Proof. reflexivity. Qed.

Lemma append_assoc (a b c : string) : (a ++ b) ++ c = a ++ b ++ c.
Proof.
  induction a as [|x a IH]; [reflexivity|].
  rewrite !append_cons. f_equal. exact IH.
Qed.

Lemma rstrip_app_tight (a b : string) :
  PyStr.rstrip b <> "" -> PyStr.rstrip (a ++ b) = a ++ PyStr.rstrip b.
Proof.
  intros Hb. induction a as [|x a IH]; [reflexivity|].
  rewrite !append_cons. cbn [PyStr.rstrip].
  rewrite IH. destruct (a ++ PyStr.rstrip b) eqn:E; [|reflexivity].
  destruct a; [contradiction | discriminate].
Qed.

Lemma rstrip_app_blank (a b : string) :
  PyStr.rstrip b = "" -> PyStr.rstrip (a ++ b) = PyStr.rstrip a.
Proof.
  intros Hb. induction a as [|x a IH]; [exact Hb|].
  rewrite append_cons. cbn [PyStr.rstrip]. rewrite IH. reflexivity.
Qed.

Lemma tight_nonempty (s : string) : tight s -> PyStr.rstrip s <> "".
Proof. intros [Hs ->]. destruct s; discriminate. Qed.

Lemma tight_app (a b : string) :
  PyStr.starts_token a = true -> PyStr.rstrip b = b -> b <> "" -> tight (a ++ b).
Proof.
  intros Ha Hb Hn. split.
  - destruct a; [discriminate | exact Ha].
  - rewrite rstrip_app_tight, Hb; [reflexivity | congruence].
Qed.

Lemma tight_join (a b : string) : tight a -> tight b -> tight (a ++ " " ++ b).
Proof.
  intros [Ha _] Hb. apply tight_app; [exact Ha| |discriminate].
  pose proof (tight_nonempty b Hb) as Hn. destruct Hb as [_ Hb].
  change (" " ++ b) with (String " " b). cbn [PyStr.rstrip].
  rewrite Hb in *. destruct b; [contradiction | reflexivity].
Qed.

Lemma strip_tight (s : string) : tight s -> PyStr.strip s = s.
Proof.
  intros [Hs Hr]. unfold PyStr.strip.
  destruct s as [|c s]; [discriminate|]. cbn [PyStr.starts_token] in Hs.
  cbn [PyStr.lstrip]. destruct (PyStr.is_space c); [discriminate | exact Hr].
Qed.

Lemma strip_tight_space (s : string) : tight s -> PyStr.strip (s ++ " ") = s.
Proof.
  intros [Hs Hr]. unfold PyStr.strip.
  destruct s as [|c s]; [discriminate|]. cbn [PyStr.starts_token] in Hs.
  rewrite append_cons. cbn [PyStr.lstrip]. destruct (PyStr.is_space c); [discriminate|].
  rewrite <- append_cons.
  rewrite rstrip_app_blank; [exact Hr | reflexivity].
Qed.

Lemma ends_with_stop (a : string) : PyStr.rstrip (a ++ ".") = a ++ "." /\ a ++ "." <> "".
Proof.
  split; [apply rstrip_app_tight; discriminate | destruct a; discriminate].
Qed.

Lemma line_tight (a b : string) : PyStr.starts_token a = true -> tight (a ++ b ++ ".").
Proof.
  intros Ha. apply tight_app; [exact Ha | apply ends_with_stop | apply ends_with_stop].
Qed.

Lemma project_line_tight (top : doc) (tech : list string) : tight (project_line top tech).
Proof.
  unfold project_line.
  rewrite <- (append_assoc _ (PyStr.join ", " tech)), <- (append_assoc _ _ ".").
  apply line_tight. reflexivity.
Qed.

Lemma certificate_line_tight (topc : doc) : tight (certificate_line topc).
Proof.
  unfold certificate_line.
  rewrite <- (append_assoc _ (py_str (get topc "skill_category" VNull))),
    <- (append_assoc _ _ ".").
  apply line_tight. reflexivity.
Qed.

Lemma journal_line_tight (tags : list string) : tight (journal_line tags).
Proof. unfold journal_line. apply line_tight. reflexivity. Qed.

Lemma chars_take (n : nat) (s : string) :
  PyStr.chars (PyStr.take n s) = firstn n (PyStr.chars s).
Proof.
  revert s. induction n as [|n IH]; intros [|c s]; simpl; try reflexivity.
  rewrite IH. reflexivity.
Qed.

Lemma project_sentence_ok (top : doc) (s : string) :
  project_sentence top = Ok s ->
  exists tech, iter_strs (get top "tech_stack" (VList [])) = Ok tech
               /\ s = project_line top tech ++ " ".
Proof.
  unfold project_sentence, join_iter. intros H.
  apply bind_ok in H as (j & Hj & H). injection H as <-.
  apply bind_ok in Hj as (tech & Ht & Hj). injection Hj as <-.
  exists tech. split; [exact Ht|].
  unfold project_line. rewrite !append_assoc. reflexivity.
Qed.

Lemma certificate_sentence_ok (topc : doc) (s : string) :
  certificate_sentence topc = Ok s -> s = certificate_line topc ++ " ".
Proof.
  unfold certificate_sentence. intros [= <-].
  unfold certificate_line. rewrite !append_assoc. reflexivity.
Qed.

Lemma journal_sentence_ok (topj : doc) (s : string) :
  journal_sentence topj = Ok s ->
  exists tags, iter_strs (get topj "tags" (VList [])) = Ok tags
               /\ s = journal_line (firstn 3 tags).
Proof.
  unfold journal_sentence, join_iter. intros H.
  apply bind_ok in H as (v & Hv & H).
  apply bind_ok in H as (j & Hj & H). injection H as <-.
  apply bind_ok in Hj as (l & Hl & Hj). injection Hj as <-.
  destruct (get topj "tags" (VList [])) as [| | | t | t | |]; try discriminate;
    injection Hv as <-; injection Hl as <-.
  - exists (PyStr.chars t). rewrite <- chars_take. split; reflexivity.
  - exists t. split; reflexivity.
Qed.

Lemma search_kind_nonempty db q m text top5 :
  search_kind db q m text = Ok top5 ->
  (top5 <> [] <-> find_all db (coll_name m) <> []).
Proof.
  intros H. apply search_kind_ok in H as [-> _].
  pose proof (sort_desc_perm (rank q text) (map as_serializable (find_all db (coll_name m)))) as P.
  apply Permutation_length in P. rewrite length_map in P.
  destruct (find_all db (coll_name m)) as [|d l];
    destruct (sort_desc _ _) as [|x s]; simpl in *; try discriminate; split; congruence.
Qed.

Lemma answer_joins_sentences (db : option database) (p : AIQuery) (r : response) :
  ai_query db p = Ok r ->
  exists sp sc sj,
    project_sentences (results r !! "projects") sp
    /\ certificate_sentences (results r !! "certificates") sc
    /\ journal_sentences (results r !! "journal") sj
    /\ answer r = PyStr.join " " (sp ++ sc ++ sj)
    /\ (answer r = "" \/ tight (answer r)).
Proof.
  intros H.
  destruct (ai_query_inv db p r H) as (s1 & s2 & s3 & Hp & Hc & Hj & _ & S1 & S2 & S3 & Ha).
  assert (E1 : exists sp, project_sentences (results r !! "projects") sp
                 /\ (sp = [] /\ s1 = "" \/ exists l, sp = [l] /\ tight l /\ s1 = l ++ " ")).
  { destruct (results r !! "projects") as [[|top ?]|]; cbn [first_of add_sentence project_sentences certificate_sentences journal_sentences] in S1 |- *;
      try (injection S1 as <-; exists []; split; [reflexivity | left; split; reflexivity]).
    apply bind_ok in S1 as (s & Hs & S1). injection S1 as <-.
    apply project_sentence_ok in Hs as (tech & Ht & ->).
    exists [project_line top tech]. split; [eauto|].
    right. eexists. split; [reflexivity|]. split; [apply project_line_tight | reflexivity]. }
  assert (E2 : exists sc, certificate_sentences (results r !! "certificates") sc
                 /\ (sc = [] /\ s2 = s1 \/ exists l, sc = [l] /\ tight l /\ s2 = s1 ++ l ++ " ")).
  { destruct (results r !! "certificates") as [[|top ?]|]; cbn [first_of add_sentence project_sentences certificate_sentences journal_sentences] in S2 |- *;
      try (injection S2 as <-; exists []; split; [reflexivity | left; split; reflexivity]).
    apply bind_ok in S2 as (s & Hs & S2). injection S2 as <-.
    apply certificate_sentence_ok in Hs as ->.
    exists [certificate_line top]. split; [reflexivity|].
    right. eexists. split; [reflexivity|]. split; [apply certificate_line_tight | reflexivity]. }
  assert (E3 : exists sj, journal_sentences (results r !! "journal") sj
                 /\ (sj = [] /\ s3 = s2 \/ exists l, sj = [l] /\ tight l /\ s3 = s2 ++ l)).
  { destruct (results r !! "journal") as [[|top ?]|]; cbn [first_of add_sentence project_sentences certificate_sentences journal_sentences] in S3 |- *;
      try (injection S3 as <-; exists []; split; [reflexivity | left; split; reflexivity]).
    apply bind_ok in S3 as (s & Hs & S3). injection S3 as <-.
    apply journal_sentence_ok in Hs as (tags & Ht & ->).
    exists [journal_line (firstn 3 tags)]. split; [eauto|].
    right. eexists. split; [reflexivity|]. split; [apply journal_line_tight | reflexivity]. }
  destruct E1 as (sp & Hsp & C1), E2 as (sc & Hsc & C2), E3 as (sj & Hsj & C3).
  exists sp, sc, sj. repeat (split; [assumption|]).
  rewrite Ha.
  destruct C1 as [[-> ->]|(l1 & -> & T1 & ->)];
    destruct C2 as [[-> ->]|(l2 & -> & T2 & ->)];
    destruct C3 as [[-> ->]|(l3 & -> & T3 & ->)];
    cbn [app PyStr.join String.concat]; rewrite ?append_assoc;
    change ("" ++ ?x) with x.
  + split; [reflexivity | left; reflexivity].
  + rewrite strip_tight by assumption. auto.
  + rewrite strip_tight_space by assumption. auto.
  + change (" " ++ l3) with (String " " l3).
    rewrite strip_tight by (apply (tight_join l2 l3); assumption).
    split; [reflexivity | right; apply (tight_join l2 l3); assumption].
  + rewrite strip_tight_space by assumption. auto.
  + rewrite strip_tight by (apply (tight_join l1 l3); assumption).
    split; [reflexivity | right; apply (tight_join l1 l3); assumption].
  + rewrite <- (append_assoc " " l2 " "), <- (append_assoc l1 _ " ").
    rewrite strip_tight_space by (apply tight_join; assumption).
    split; [reflexivity | right; apply tight_join; assumption].
  + assert (T : tight (l1 ++ " " ++ l2 ++ " " ++ l3))
      by (apply tight_join; [|apply tight_join]; assumption).
    rewrite strip_tight by exact T. split; [reflexivity | right; exact T].
Qed.

Lemma results_first_iff (db : option database) (p : AIQuery) (r : response) :
  ai_query db p = Ok r ->
  forall key names m text,
    In (key, names, m, text) searched_kinds ->
    (first_of (results r !! key) <> None
     <-> member (focus_name p) names = true /\ find_all db (coll_name m) <> []).
Proof.
  intros H.
  destruct (ai_query_inv db p r H) as (s1 & s2 & s3 & Hp & Hc & Hj & _).
  intros key names m text Hin.
  assert (Hs : searched db (PyStr.lower (question p)) (focus_name p) names m text
                 (results r !! key)).
  { simpl in Hin. destruct Hin as [E|[E|[E|[]]]]; injection E as <- <- <- <-; assumption. }
  unfold searched in Hs. destruct (member (focus_name p) names).
  + destruct Hs as (top5 & Hk & ->).
    apply search_kind_nonempty in Hk. rewrite <- Hk.
    destruct top5; simpl; split; try tauto; try congruence.
    intros _. split; [reflexivity | discriminate].
  + rewrite Hs. simpl. split; [congruence | intros [[=] _]].
Qed.

(** C4: the answer is the sentences of the projects, the certificates and
    the journal, in that order, joined by single spaces, with no whitespace
    at either end.  Each kind contributes its sentence exactly when its
    results list has a first element, which is when the kind is searched and
    the store holds a record of it, whatever the scores; the journal
    sentence names the first three tags of the top-ranked entry, or all of
    them when there are fewer. *)
Theorem C4_answer_sentences (db : option database) (p : AIQuery) (r : response) :
  ai_query db p = Ok r ->
  (exists sp sc sj,
      project_sentences (results r !! "projects") sp
      /\ certificate_sentences (results r !! "certificates") sc
      /\ journal_sentences (results r !! "journal") sj
      /\ answer r = PyStr.join " " (sp ++ sc ++ sj)
      /\ (answer r = "" \/ tight (answer r)))
  /\ (forall key names m text,
        In (key, names, m, text) searched_kinds ->
        (first_of (results r !! key) <> None
         <-> member (focus_name p) names = true /\ find_all db (coll_name m) <> [])).
Proof.
  intros H. split; [exact (answer_joins_sentences db p r H) | exact (results_first_iff db p r H)].
Qed.


Lemma C3_focus_selects_kinds_witness :
  dom (results certificates_response) = {["certificates"]}
  /\ results certificates_response !! "projects" = None
  /\ results certificates_response !! "journal" = None.
Proof.
  apply (proj1 (C3_focus_selects_kinds portfolio (mk_AIQuery "cloud" (Some "Certificates")))
           certificates_response ltac:(by_evaluation)).
  right. by_evaluation.
Defined.

Lemma C4_answer_sentences_witness :
  exists sp sc sj,
    project_sentences (results portfolio_response !! "projects") sp
    /\ certificate_sentences (results portfolio_response !! "certificates") sc
    /\ journal_sentences (results portfolio_response !! "journal") sj
    /\ answer portfolio_response = PyStr.join " " (sp ++ sc ++ sj)
    /\ (answer portfolio_response = "" \/ tight (answer portfolio_response)).
Proof.
  apply (C4_answer_sentences portfolio (mk_AIQuery "python data" None)
           portfolio_response ltac:(by_evaluation)).
Defined.

(** ** Only certificates *)

(** C5, as amended: with [focus] unset, when the store holds no project and
    no journal entry but at least one certificate, the answer is exactly one
    sentence, the certificate sentence of the top-ranked certificate. *)
Theorem C5_only_certificates_stored (db : option database) (p : AIQuery) (r : response) :
  focus p = None ->
  find_all db (coll_name Project) = [] ->
  find_all db (coll_name JournalEntry) = [] ->
  find_all db (coll_name Certificate) <> [] ->
  ai_query db p = Ok r ->
  exists topc rest,
    results r !! "certificates" = Some (topc :: rest)
    /\ answer r = certificate_line topc.
Proof.
  intros Hf Hp Hj Hc H.
  assert (Fn : focus_name p = "") by (unfold focus_name; rewrite Hf; reflexivity).
  pose proof (results_first_iff db p r H) as K.
  destruct (answer_joins_sentences db p r H) as (sp & sc & sj & Sp & Sc & Sj & Ha & _).
  assert (Ep : first_of (results r !! "projects") = None).
  { destruct (first_of (results r !! "projects")) eqn:E; [|reflexivity].
    destruct (proj1 (K "projects" _ Project project_text ltac:(simpl; auto))) as [_ N];
      [rewrite E; discriminate | contradiction]. }
  assert (Ej : first_of (results r !! "journal") = None).
  { destruct (first_of (results r !! "journal")) eqn:E; [|reflexivity].
    destruct (proj1 (K "journal" _ JournalEntry journal_text ltac:(simpl; auto))) as [_ N];
      [rewrite E; discriminate | contradiction]. }
  assert (Ec : first_of (results r !! "certificates") <> None).
  { apply (K "certificates" _ Certificate certificate_text ltac:(simpl; auto)).
    split; [rewrite Fn; reflexivity | exact Hc]. }
  unfold first_of in Ep, Ej, Ec.
  destruct (results r !! "certificates") as [[|topc rest]|]; try contradiction.
  exists topc, rest. split; [reflexivity|].
  rewrite Ha.
  destruct (results r !! "projects") as [[|? ?]|]; try discriminate;
    destruct (results r !! "journal") as [[|? ?]|]; try discriminate;
    simpl in Sp, Sc, Sj; subst sp sc sj; reflexivity.
Qed.

Lemma C5_only_certificates_stored_witness :
  exists topc rest,
    results certificates_only_response !! "certificates" = Some (topc :: rest)
    /\ answer certificates_only_response = certificate_line topc.
Proof.
  apply (C5_only_certificates_stored certificates_only (mk_AIQuery "nothing matches" None));
    try by_evaluation.
  discriminate.
Defined.

(** The claim C5 as it was stated fails: the question "cloud" matches the
    one certificate and not the one project, yet the answer opens with the
    project sentence. *)
Lemma C5_counterexample :
  focus (mk_AIQuery "cloud" None) = None
  /\ only_certificates_match engine_and_certificate (PyStr.lower "cloud")
  /\ ai_query engine_and_certificate (mk_AIQuery "cloud" None)
     = Ok engine_and_certificate_response
  /\ answer engine_and_certificate_response
     = project_line (as_serializable game_engine) ["C++"]
       ++ " " ++ certificate_line (as_serializable aws_certificate)
  /\ answer engine_and_certificate_response
     <> certificate_line (as_serializable aws_certificate).
Proof.
  split; [reflexivity|]. split.
  { split; [|split].
    - constructor; [by_evaluation | constructor].
    - constructor.
    - constructor. exists 0%nat. by_evaluation. }
  split; [by_evaluation|]. split; [by_evaluation|].
  intros E.
  assert (N : String.eqb (answer engine_and_certificate_response)
                (certificate_line (as_serializable aws_certificate)) = false) by by_evaluation.
  rewrite E, String.eqb_refl in N. discriminate.
Qed.

(** ** [ai_query] returns on stores that follow the schemas *)

Lemma certificate_text_record (d : doc) :
  certificate_record d = true -> exists t, certificate_text (as_serializable d) = Ok t.
Proof.
  unfold certificate_record. rewrite !andb_true_iff. intros [[[Ht Ho] Hs] Hr].
  unfold certificate_text.
  rewrite (get_text d "title"), (get_text d "organization"),
    (get_text d "skill_category"), (get_text d "reflection") by (assumption || discriminate).
  eexists. reflexivity.
Qed.

Lemma journal_text_record (d : doc) :
  journal_record d = true -> exists t, journal_text (as_serializable d) = Ok t.
Proof.
  unfold journal_record. rewrite !andb_true_iff. intros [[Ht Hc] Hg].
  unfold journal_text.
  rewrite (get_list d "tags"), (get_text d "title"), (get_text d "content_markdown")
    by (assumption || discriminate).
  eexists. reflexivity.
Qed.

Lemma traverse_total {A B} (f : A -> result B) (l : list A) :
  Forall (fun x => exists y, f x = Ok y) l -> exists ys, traverse f l = Ok ys.
Proof.
  induction 1 as [|x l [y Hy] _ [ys IH]]; simpl; [eauto|].
  rewrite Hy. simpl. rewrite IH. simpl. eauto.
Qed.

Lemma search_kind_total (db : option database) (q : string) (m : model_cls)
    (text : doc -> result string) :
  Forall (fun d => exists t, text (as_serializable d) = Ok t) (find_all db (coll_name m)) ->
  exists top5, search_kind db q m text = Ok top5
               /\ Forall (fun x => exists d, In d (find_all db (coll_name m))
                                             /\ x = as_serializable d) top5.
Proof.
  intros Hall. unfold search_kind, sorted_reverse.
  destruct (traverse_total (fun x => k ← score q text x; Ok (k, x))
              (map as_serializable (find_all db (coll_name m)))) as [keyed Hk].
  { apply Forall_map. eapply Forall_impl; [exact Hall|].
    intros d [t Ht]. unfold score. simpl. rewrite Ht. simpl. eauto. }
  rewrite Hk. cbn [mbind result_bind]. eexists. split; [reflexivity|].
  pose proof Hk as Hk'. apply traverse_keys in Hk' as [-> _]. rewrite sort_keyed.
  apply Forall_forall. intros x Hx. apply subseteq_take in Hx.
  apply list_elem_of_In in Hx.
  eapply Permutation_in in Hx; [|apply sort_desc_perm].
  apply in_map_iff in Hx as (d & <- & Hd). eauto.
Qed.

(** Whatever the question and the focus, [ai_query] returns a response
    when the searched fields of the stored records are typed as the schemas
    declare them: no join meets a value that is not a string. *)
Lemma ai_query_returns (db : option database) (p : AIQuery) :
  schema_store db -> exists r, ai_query db p = Ok r.
Proof.
  intros (Hp & Hc & Hj).
  set (q := PyStr.lower (question p)).
  destruct (search_kind_total db q Project project_text) as (tp & Sp & Tp).
  { eapply Forall_impl; [exact Hp|]. intros d Hd. rewrite (project_text_record d Hd). eauto. }
  destruct (search_kind_total db q Certificate certificate_text) as (tc & Sc & Tc).
  { eapply Forall_impl; [exact Hc|]. intros d Hd. apply certificate_text_record, Hd. }
  destruct (search_kind_total db q JournalEntry journal_text) as (tj & Sj & Tj).
  { eapply Forall_impl; [exact Hj|]. intros d Hd. apply journal_text_record, Hd. }
  assert (Pp : forall top, In top tp -> exists s, project_sentence top = Ok s).
  { intros top Hin. apply list_elem_of_In in Hin.
    destruct (proj1 (Forall_forall _ _) Tp top Hin) as (d & Hd & ->).
    apply list_elem_of_In in Hd.
    pose proof (proj1 (Forall_forall _ _) Hp d Hd) as R. simpl in R.
    unfold project_record in R. rewrite !andb_true_iff in R. destruct R as [[[_ _] Hs] _].
    unfold project_sentence. rewrite (get_list d "tech_stack") by (assumption || discriminate).
    eexists. reflexivity. }
  assert (Pj : forall top, In top tj -> exists s, journal_sentence top = Ok s).
  { intros top Hin. apply list_elem_of_In in Hin.
    destruct (proj1 (Forall_forall _ _) Tj top Hin) as (d & Hd & ->).
    apply list_elem_of_In in Hd.
    pose proof (proj1 (Forall_forall _ _) Hj d Hd) as R. simpl in R.
    unfold journal_record in R. rewrite !andb_true_iff in R. destruct R as [[_ _] Hg].
    unfold journal_sentence. rewrite (get_list d "tags") by (assumption || discriminate).
    eexists. reflexivity. }
  assert (Ap : forall s (e : option (list doc)),
             (forall l, e = Some l -> l = tp) ->
             exists s', add_sentence s (first_of e) project_sentence = Ok s').
  { intros s [[|top l]|] He; simpl; eauto.
    destruct (Pp top) as [x Hx]; [rewrite <- (He _ eq_refl); left; reflexivity|].
    rewrite Hx. simpl. eauto. }
  assert (Ac : forall s (e : option (list doc)),
             exists s', add_sentence s (first_of e) certificate_sentence = Ok s').
  { intros s [[|top l]|]; simpl; eauto. }
  assert (Aj : forall s (e : option (list doc)),
             (forall l, e = Some l -> l = tj) ->
             exists s', add_sentence s (first_of e) journal_sentence = Ok s').
  { intros s [[|top l]|] He; simpl; eauto.
    destruct (Pj top) as [x Hx]; [rewrite <- (He _ eq_refl); left; reflexivity|].
    rewrite Hx. simpl. eauto. }
  unfold ai_query. fold q. rewrite Sp, Sc, Sj.
  set (f := PyStr.lower (default "" (focus p))).
  set (r1 := if member f [""; "project"; "projects"] then _ else _).
  assert (R1 : exists m1, r1 = Ok m1 /\ (forall l, m1 !! "projects" = Some l -> l = tp)
                          /\ m1 !! "certificates" = None /\ m1 !! "journal" = None).
  { subst r1. destruct (member f [""; "project"; "projects"]); simpl; eexists;
      (split; [reflexivity|]); rewrite ?lookup_insert_eq, ?lookup_insert_ne, ?lookup_empty by discriminate;
      repeat split; congruence. }
  destruct R1 as (m1 & -> & L1 & N1c & N1j). cbn [mbind result_bind].
  set (r2 := if member f [""; "certificate"; "certificates"] then _ else _).
  assert (R2 : exists m2, r2 = Ok m2 /\ (forall l, m2 !! "projects" = Some l -> l = tp)
                          /\ m2 !! "journal" = None).
  { subst r2. destruct (member f [""; "certificate"; "certificates"]); simpl; eexists;
      (split; [reflexivity|]); rewrite ?lookup_insert_ne by discriminate; auto. }
  destruct R2 as (m2 & -> & L2 & N2j). cbn [mbind result_bind].
  set (r3 := if member f [""; "journal"] then _ else _).
  assert (R3 : exists m3, r3 = Ok m3 /\ (forall l, m3 !! "projects" = Some l -> l = tp)
                          /\ (forall l, m3 !! "journal" = Some l -> l = tj)).
  { subst r3. destruct (member f [""; "journal"]); simpl; eexists;
      (split; [reflexivity|]); rewrite ?lookup_insert_eq, ?lookup_insert_ne by discriminate;
      split; auto; congruence. }
  destruct R3 as (m3 & -> & L3p & L3j). cbn [mbind result_bind].
  fold (first_of (m3 !! "projects")) (first_of (m3 !! "certificates")) (first_of (m3 !! "journal")).
  unfold top_of.
  fold (first_of (m3 !! "projects")) (first_of (m3 !! "certificates")) (first_of (m3 !! "journal")).
  destruct (Ap "" (m3 !! "projects") L3p) as [s1 ->]. cbn [mbind result_bind].
  destruct (Ac s1 (m3 !! "certificates")) as [s2 ->]. cbn [mbind result_bind].
  destruct (Aj s2 (m3 !! "journal") L3j) as [s3 ->]. cbn [mbind result_bind].
  eexists. reflexivity.
Qed.

(** ** Listing *)

Section Listing.
Context {E : RegexEngine}.

Lemma matches_empty (d : doc) : matches ∅ d = true.
Proof. unfold matches. apply bool_decide_eq_true. apply map_Forall_empty. Qed.

Lemma matches_insert (f : filter_doc) (k : string) (c : condition) (d : doc) :
  f !! k = None ->
  matches (<[k := c]> f) d = holds c (d !! k) && matches f d.
Proof.
  intros Hk. unfold matches.
  destruct (holds c (d !! k)) eqn:Hc; simpl.
  - apply bool_decide_ext. rewrite map_Forall_insert by exact Hk. tauto.
  - apply bool_decide_eq_false. rewrite map_Forall_insert by exact Hk.
    intros [H _]. congruence.
Qed.

Lemma filter_all {A} (l : list A) : List.filter (fun _ => true) l = l.
Proof. induction l as [|x l IH]; simpl; [|rewrite IH]; reflexivity. Qed.

Lemma get_profile_first (d : database) :
  get_profile (Some d)
  = Ok (match collection d (coll_name Profile) with
        | first :: _ => as_serializable first
        | [] => ∅
        end).
Proof.
  unfold get_profile, list_items, get_documents. cbn [default mbind result_bind].
  rewrite (filter_ext _ (fun _ => true)) by (intros; apply matches_empty).
  rewrite filter_all.
  destruct (collection d (coll_name Profile)); reflexivity.
Qed.

Lemma holds_mentions (v k : string) (d : doc) :
  LiteralSearch E -> literal v = true ->
  holds (ElemMatchRegex v "i") (d !! k) = mentions v k d.
Proof.
  intros HE Hv. unfold holds, mentions, list_of.
  destruct (d !! k) as [[| | | |l| |]|]; try reflexivity.
  induction l as [|x l IH]; simpl; [reflexivity|].
  rewrite (HE v x Hv), IH. reflexivity.
Qed.

Lemma given_some (param : option string) :
  given param = true -> exists v, param = Some v /\ String.eqb v "" = false.
Proof.
  destruct param as [v|]; simpl; [|discriminate].
  intros H. exists v. split; [reflexivity|]. destruct (String.eqb v ""); [discriminate | reflexivity].
Qed.

Lemma given_none (param : option string) (field : string) (d : doc) :
  given param = false -> wanted param field d = true.
Proof.
  destruct param as [v|]; simpl; [|reflexivity].
  destruct (String.eqb v ""); [reflexivity | discriminate].
Qed.

(** C7, as amended: on a configured store, for a [tag] that is given, not
    empty and free of regular-expression metacharacters, GET /projects
    returns, serialized and in store order, exactly the projects one of
    whose highlights contains the tag, case folded, and likewise [tech]
    over tech_stack; a parameter that is absent or empty puts no constraint,
    so without parameters every project is returned; two parameters combine
    as a conjunction.  The engine is any one that searches literally for a
    pattern without metacharacters. *)
Theorem C7_get_projects_filters (d : database) (tag tech : option string) :
  LiteralSearch E ->
  plain tag = true -> plain tech = true ->
  get_projects (Some d) tag tech
  = Ok (map as_serializable
          (List.filter (fun p => wanted tag "highlights" p && wanted tech "tech_stack" p)
             (collection d (coll_name Project)))).
Proof.
  intros HE Htag Htech.
  unfold get_projects, list_items, get_documents. cbn [default mbind result_bind].
  do 2 f_equal. apply filter_ext. intros p.
  destruct (given tag) eqn:Gt; destruct (given tech) eqn:Gh.
  - apply given_some in Gt as (v & -> & Nv). apply given_some in Gh as (w & -> & Nw).
    cbn [default from_option id wanted plain] in *. rewrite Nv, Nw.
    rewrite matches_insert by (rewrite lookup_insert_ne by discriminate; apply lookup_empty).
    rewrite matches_insert by apply lookup_empty.
    rewrite matches_empty, !holds_mentions by assumption.
    rewrite andb_true_r. apply andb_comm.
  - apply given_some in Gt as (v & -> & Nv).
    rewrite (given_none tech) by exact Gh.
    cbn [default from_option id wanted plain] in *. rewrite Nv.
    rewrite matches_insert by apply lookup_empty.
    rewrite matches_empty, holds_mentions by assumption. reflexivity.
  - apply given_some in Gh as (w & -> & Nw).
    rewrite (given_none tag) by exact Gt.
    cbn [default from_option id wanted plain] in *. rewrite Nw.
    rewrite matches_insert by apply lookup_empty.
    rewrite matches_empty, holds_mentions by assumption. rewrite andb_true_r. reflexivity.
  - rewrite (given_none tag), (given_none tech) by assumption. apply matches_empty.
Qed.

End Listing.

Lemma match_here_literal (p s : string) :
  literal p = true -> match_here p s = PyStr.startswith p s.
Proof.
  revert s. induction p as [|a p IH]; intros s Hp; [destruct s; reflexivity|].
  unfold literal in Hp. cbn [list_ascii_of_string forallb] in Hp.
  apply andb_prop in Hp as [Ha Hp].
  destruct s as [|b s]; [reflexivity|].
  cbn [match_here PyStr.startswith]. rewrite (IH s Hp).
  destruct (Ascii.eqb_spec a "."); [subst a; discriminate | reflexivity].
Qed.

Lemma search_literal (p s : string) :
  literal p = true -> search p s = PyStr.contains p s.
Proof.
  intros Hp. induction s as [|b s IH]; cbn [search PyStr.contains];
    rewrite match_here_literal by exact Hp; [reflexivity | rewrite IH; reflexivity].
Qed.

Lemma lower_ascii_meta (c : ascii) : is_meta (PyStr.lower_ascii c) = is_meta c.
Proof.
  destruct c as [[] [] [] [] [] [] [] []]; reflexivity.
Qed.

Lemma literal_lower (p : string) : literal (PyStr.lower p) = literal p.
Proof.
  unfold literal. induction p as [|a p IH]; [reflexivity|].
  cbn [PyStr.lower list_ascii_of_string forallb]. rewrite lower_ascii_meta, IH. reflexivity.
Qed.

Lemma simple_engine_literal : LiteralSearch simple_engine.
Proof.
  intros p s Hp. unfold regex_search, simple_engine.
  change (PyStr.has_char "i" "i") with true. cbn [negb].
  apply search_literal. rewrite literal_lower. exact Hp.
Qed.

Lemma C7_get_projects_filters_witness :
  LiteralSearch simple_engine
  /\ plain (Some "RUST") = true /\ plain (Some "wgpu") = true
  /\ @get_projects simple_engine (Some project_store) (Some "RUST") (Some "wgpu")
     = Ok (map as_serializable
             (List.filter (fun p => wanted (Some "RUST") "highlights" p
                                    && wanted (Some "wgpu") "tech_stack" p)
                (collection project_store (coll_name Project))))
  /\ List.filter (fun p => wanted (Some "RUST") "highlights" p
                           && wanted (Some "wgpu") "tech_stack" p)
       (collection project_store (coll_name Project)) = [fast_project].
Proof.
  split; [exact simple_engine_literal|].
  split; [reflexivity|]. split; [reflexivity|].
  split; [|by_evaluation].
  apply (@C7_get_projects_filters simple_engine project_store (Some "RUST") (Some "wgpu")
           simple_engine_literal); reflexivity.
Defined.

(** The claim C7 as it was stated fails twice.  An empty [tag] is no
    filter: the project without highlights is returned, though none of its
    highlights contains the empty string.  The tag [.] is read as a pattern:
    the project with highlights is returned, though no highlight contains a
    dot. *)
Lemma C7_counterexample :
  @get_projects simple_engine (Some project_store) (Some "") None
  = Ok [as_serializable bare_project; as_serializable fast_project]
  /\ List.filter (mentions "" "highlights") (collection project_store (coll_name Project))
     = [fast_project]
  /\ @get_projects simple_engine (Some project_store) (Some ".") None
     = Ok [as_serializable fast_project]
  /\ List.filter (mentions "." "highlights") (collection project_store (coll_name Project))
     = [].
Proof. repeat split; by_evaluation. Qed.

(** C6: GET /profile returns the first profile in the order of the store,
    serialized, and the empty object when there is none.  On a store that
    returns an older profile before a newer one, it returns the older. *)
Theorem C6_get_profile_first_stored :
  (forall (E : RegexEngine) (d : database),
      get_profile (Some d)
      = Ok (match collection d (coll_name Profile) with
            | first :: _ => as_serializable first
            | [] => ∅
            end))
  /\ @get_profile simple_engine (Some profile_store) = Ok (as_serializable older_profile)
  /\ as_serializable older_profile !! "created_at" = Some (VStr "2024-01-15T09:30:00")
  /\ as_serializable newer_profile !! "created_at" = Some (VStr "2025-06-01T12:00:00")
  /\ @get_profile simple_engine (Some profile_store) <> Ok (as_serializable newer_profile)
  /\ @get_profile simple_engine (Some ∅) = Ok ∅.
Proof.
  split; [intros E d; apply get_profile_first|].
  split; [by_evaluation|]. split; [by_evaluation|]. split; [by_evaluation|].
  split; [|by_evaluation].
  intros Heq.
  pose (tagline_of := fun r : result doc =>
          match r with
          | Ok d => d !! "tagline"
          | Err _ => None
          end).
  apply (f_equal tagline_of) in Heq.
  assert (A : tagline_of (@get_profile simple_engine (Some profile_store))
              = Some (VStr "Student")) by by_evaluation.
  assert (B : tagline_of (Ok (as_serializable newer_profile))
              = Some (VStr "Engineer")) by by_evaluation.
  rewrite A, B in Heq. discriminate Heq.
Qed.

(** ** Updating and deleting by identifier *)

Lemma existsb_find_none {A} (p : A -> bool) (l : list A) :
  existsb p l = false <-> List.find p l = None.
Proof.
  induction l as [|x l IH]; simpl; [tauto|].
  destruct (p x); simpl; [split; discriminate | exact IH].
Qed.

Lemma find_split {A} (p : A -> bool) (l : list A) (x : A) :
  List.find p l = Some x ->
  exists before after,
    l = (before ++ x :: after)%list /\ existsb p before = false /\ p x = true.
Proof.
  induction l as [|y l IH]; simpl; [discriminate|].
  destruct (p y) eqn:Hy.
  - intros [= ->]. exists [], l. auto.
  - intros H. destruct (IH H) as (b & a & -> & Hb & Hx).
    exists (y :: b), a. simpl. rewrite Hy. auto.
Qed.

Lemma update_first_split (p : doc -> bool) (f : doc -> doc) (before after : list doc) (x : doc) :
  existsb p before = false -> p x = true ->
  update_first p f (before ++ x :: after) = (before ++ f x :: after)%list.
Proof.
  induction before as [|y b IH]; simpl; intros Hb Hx.
  - rewrite Hx. reflexivity.
  - apply orb_false_elim in Hb as [Hy Hb]. rewrite Hy, IH by assumption. reflexivity.
Qed.

Lemma find_app_later {A} (p : A -> bool) (before after : list A) (x : A) :
  existsb p before = false -> p x = true ->
  List.find p (before ++ x :: after) = Some x.
Proof.
  induction before as [|y b IH]; simpl; intros Hb Hx.
  - rewrite Hx. reflexivity.
  - apply orb_false_elim in Hb as [Hy Hb]. rewrite Hy. auto.
Qed.

Lemma remove_first_unique (p : doc -> bool) (l : list doc) :
  (length (List.filter p l) <= 1)%nat -> existsb p (remove_first p l) = false.
Proof.
  induction l as [|x l IH]; simpl; [reflexivity|].
  destruct (p x) eqn:Hx; simpl; intros H.
  - destruct (existsb p l) eqn:E; [|reflexivity].
    apply existsb_exists in E as (y & Hy & Py).
    assert (In y (List.filter p l)) as Hin by (apply filter_In; auto).
    destruct (List.filter p l); [contradiction | simpl in H; lia].
  - rewrite Hx. simpl. auto.
Qed.

Lemma collection_insert (d : database) (name : string) (docs : list doc) :
  collection (<[name := docs]> d) name = docs.
Proof. unfold collection. rewrite lookup_insert_eq. reflexivity. Qed.





Lemma project_store_ids (oid : string) :
  has_id oid bare_project = String.eqb "64b7f1a2c3d4e5f607182932" oid
  /\ has_id oid fast_project = String.eqb "64b7f1a2c3d4e5f607182933" oid.
Proof. split; by_evaluation. Qed.

Lemma project_store_unique : unique_ids (collection project_store (coll_name Project)).
Proof.
  intros oid.
  change (collection project_store (coll_name Project)) with [bare_project; fast_project].
  destruct (project_store_ids oid) as [Hb Hf]. cbn [List.filter]. rewrite Hb, Hf.
  destruct (String.eqb_spec "64b7f1a2c3d4e5f607182932" oid) as [E1|_],
    (String.eqb_spec "64b7f1a2c3d4e5f607182933" oid) as [E2|_]; simpl; try lia.
  rewrite <- E1 in E2. discriminate.
Qed.


Lemma storable_no_id (data : doc) : storable data -> data !! "_id" = None.
Proof.
  intros Hs. destruct (data !! "_id") as [v|] eqn:E; [|reflexivity].
  destruct (Hs "_id" v E) as [Hk _]. discriminate.
Qed.

(** C10, as amended: on a configured store, for an id that a document of
    the collection carries and for a mapping of plain top-level fields
    other than [_id] to values the store can encode, [update_item] replaces
    the first document with that id by one in which [updated_at] is the
    server's current time as the store keeps it, cut to the millisecond,
    also when the mapping names [updated_at], every other field the mapping
    names has the mapped value (a datetime to the millisecond), and every
    field it does not name is as before; the other documents and the other
    collections are untouched.  It returns the updated document,
    serialized. *)
Theorem C10_update_sets_fields (d : database) (m : model_cls) (id_str oid : string)
    (data : doc) (now : datetime) (old : doc) :
  ObjectId id_str = Some oid ->
  find_one d (coll_name m) oid = Some old ->
  storable data ->
  exists before after new d',
    collection d (coll_name m) = (before ++ old :: after)%list
    /\ store (update_item (Some d) m id_str data now) = Some d'
    /\ collection d' (coll_name m) = (before ++ new :: after)%list
    /\ (forall c, c <> coll_name m -> d' !! c = d !! c)
    /\ new !! "updated_at" = Some (VDatetime (truncate_ms now))
    /\ (forall k v, k <> "updated_at" -> data !! k = Some v -> new !! k = Some (bson_value v))
    /\ (forall k, k <> "updated_at" -> data !! k = None -> new !! k = old !! k)
    /\ returned (update_item (Some d) m id_str data now) = Ok (Some (as_serializable new)).
Proof.
  intros Hid Hold Hst. pose proof (storable_no_id data Hst) as Hno.
  unfold find_one in Hold.
  destruct (find_split _ _ _ Hold) as (before & after & Hl & Hb & Hx).
  set (fields := <["updated_at" := VDatetime now]> data).
  set (new := set_fields (bson_value <$> fields) old).
  exists before, after, new, (<[coll_name m := (before ++ new :: after)%list]> d).
  assert (Hex : existsb (has_id oid) (collection d (coll_name m)) = true).
  { destruct (existsb (has_id oid) (collection d (coll_name m))) eqn:E; [reflexivity|].
    apply existsb_find_none in E. congruence. }
  assert (Hu : update_item (Some d) m id_str data now
               = mk_outcome
                   (Ok (as_serializable_opt
                          (find_one (<[coll_name m := (before ++ new :: after)%list]> d)
                             (coll_name m) oid)))
                   (Some (<[coll_name m := (before ++ new :: after)%list]> d))
                   [UpdateOne (coll_name m) oid fields; FindOne (coll_name m) oid]).
  { unfold update_item, to_oid, update_one. rewrite Hid, Hex. fold fields.
    cbn [Nat.eqb]. rewrite Hl, update_first_split by assumption. reflexivity. }
  rewrite Hu. cbn [store returned].
  split; [exact Hl|]. split; [reflexivity|].
  split; [apply collection_insert|].
  split; [intros c Hc; apply lookup_insert_ne; congruence|].
  unfold new, set_fields, fields.
  split; [apply lookup_union_Some_l; rewrite lookup_fmap, lookup_insert_eq; reflexivity|].
  split.
  { intros k v Hk Hv. apply lookup_union_Some_l.
    rewrite lookup_fmap, lookup_insert_ne, Hv by congruence. reflexivity. }
  split.
  { intros k Hk Hv. apply lookup_union_r.
    rewrite lookup_fmap, lookup_insert_ne, Hv by congruence. reflexivity. }
  do 2 f_equal. unfold find_one. rewrite collection_insert.
  rewrite find_app_later; [reflexivity | exact Hb |].
  unfold has_id in *. rewrite lookup_union_r; [exact Hx|].
  rewrite lookup_fmap, lookup_insert_ne, Hno by discriminate. reflexivity.
Qed.

Lemma retitle_storable : storable retitle.
Proof.
  unfold retitle. apply map_Forall_insert_2; [split; reflexivity|].
  apply map_Forall_insert_2; [split; reflexivity|]. apply map_Forall_empty.
Qed.

Lemma C10_update_sets_fields_witness :
  exists before after new d',
    collection project_store (coll_name Project) = (before ++ fast_project :: after)%list
    /\ store (update_item (Some project_store) Project fast_project_id retitle half_past)
       = Some d'
    /\ collection d' (coll_name Project) = (before ++ new :: after)%list
    /\ (forall c, c <> coll_name Project -> d' !! c = project_store !! c)
    /\ new !! "updated_at" = Some (VDatetime (truncate_ms half_past))
    /\ (forall k v, k <> "updated_at" -> retitle !! k = Some v ->
          new !! k = Some (bson_value v))
    /\ (forall k, k <> "updated_at" -> retitle !! k = None -> new !! k = fast_project !! k)
    /\ returned (update_item (Some project_store) Project fast_project_id retitle half_past)
       = Ok (Some (as_serializable new)).
Proof.
  apply (C10_update_sets_fields project_store Project fast_project_id fast_project_id
           retitle half_past fast_project); [by_evaluation | by_evaluation |].
  exact retitle_storable.
Defined.

(** The claim C10 as it was stated fails: the server's clock reads half a
    millisecond past noon, and the document is stored, and returned, with
    [updated_at] at noon and one millisecond. *)
Lemma C10_counterexample :
  stored_field (update_item (Some project_store) Project fast_project_id retitle half_past)
    "project" fast_project_id "updated_at"
  = Some (VDatetime (mk_datetime 2025 6 1 12 0 0 1000))
  /\ mk_datetime 2025 6 1 12 0 0 1000 <> half_past
  /\ returned_field
       (update_item (Some project_store) Project fast_project_id retitle half_past)
       "updated_at"
     = Some (VStr "2025-06-01T12:00:00.001000")
  /\ isoformat half_past = "2025-06-01T12:00:00.001500".
Proof.
  split; [by_evaluation|]. split; [discriminate|]. split; by_evaluation.
Qed.

(** * Further properties *)

(** ** Serialization *)

Lemma is_empty_spec (d : doc) : is_empty d = true <-> d = ∅.
Proof.
  unfold is_empty. destruct (map_to_list d) eqn:Hl.
  - apply map_to_list_empty_iff in Hl. tauto.
  - split; [discriminate|]. intros ->. rewrite map_to_list_empty in Hl. discriminate.
Qed.

Lemma isoformat_value_idem (v : value) :
  isoformat_value (isoformat_value v) = isoformat_value v.
Proof. destruct v; reflexivity. Qed.

Lemma isoformat_value_truthy (v : value) : truthy (isoformat_value v) = truthy v.
Proof.
  destruct v as [| | | | | |t]; try reflexivity.
  simpl. unfold isoformat, date_part.
  destruct (PyStr.pad 4 (year t)); reflexivity.
Qed.

(** Serialization as one map over the fields, once the identifier is
    moved. *)
Lemma as_serializable_unfold (d : doc) :
  as_serializable d
  = isoformat_value <$>
      match d !! "_id" with
      | Some v => if truthy v then <["id" := VStr (py_str v)]> (delete "_id" d) else d
      | None => d
      end.
Proof.
  unfold as_serializable. destruct (is_empty d) eqn:He; [|reflexivity].
  apply is_empty_spec in He. subst d. rewrite lookup_empty, fmap_empty. reflexivity.
Qed.

(** X1: a serialized record holds no datetime: every datetime field of the
    document has become text. *)
Theorem as_serializable_no_datetime (d : doc) (k : string) (t : datetime) :
  as_serializable d !! k <> Some (VDatetime t).
Proof.
  rewrite as_serializable_unfold, lookup_fmap. intros H.
  apply fmap_Some in H as (v & _ & Hv). destruct v; discriminate.
Qed.

Lemma as_serializable_moves_id_aux (d : doc) (v : value) :
  d !! "_id" = Some v -> truthy v = true ->
  as_serializable d !! "_id" = None
  /\ as_serializable d !! "id" = Some (VStr (py_str v))
  /\ (forall k, k <> "_id" -> k <> "id" ->
        as_serializable d !! k = isoformat_value <$> d !! k).
Proof.
  intros Hid Ht. rewrite as_serializable_unfold, Hid, Ht.
  split; [rewrite lookup_fmap, lookup_insert_ne, lookup_delete_eq by discriminate; reflexivity|].
  split; [rewrite lookup_fmap, lookup_insert_eq; reflexivity|].
  intros k H1 H2. rewrite lookup_fmap, lookup_insert_ne, lookup_delete_ne by congruence.
  reflexivity.
Qed.

(** X2: when the document has an identifier that counts as true, such as
    an [ObjectId], the serialized record has no [_id] field, has under [id]
    the text of the identifier, whatever the document held under [id], and
    every other field as it was, datetimes as ISO text. *)
Theorem as_serializable_moves_id (d : doc) (v : value) :
  d !! "_id" = Some v -> truthy v = true ->
  as_serializable d !! "_id" = None
  /\ as_serializable d !! "id" = Some (VStr (py_str v))
  /\ (forall hex, v = VOid hex -> as_serializable d !! "id" = Some (VStr hex))
  /\ (forall k, k <> "_id" -> k <> "id" ->
        as_serializable d !! k = isoformat_value <$> d !! k).
Proof.
  intros Hid Ht.
  destruct (as_serializable_moves_id_aux d v Hid Ht) as (A & B & C).
  split; [exact A|]. split; [exact B|]. split; [intros hex ->; exact B | exact C].
Qed.

Lemma as_serializable_moves_id_witness :
  as_serializable fast_project !! "_id" = None
  /\ as_serializable fast_project !! "id" = Some (VStr (py_str (VOid fast_project_id)))
  /\ (forall hex, VOid fast_project_id = VOid hex ->
        as_serializable fast_project !! "id" = Some (VStr hex))
  /\ (forall k, k <> "_id" -> k <> "id" ->
        as_serializable fast_project !! k = isoformat_value <$> fast_project !! k).
Proof.
  apply (as_serializable_moves_id fast_project (VOid fast_project_id)); by_evaluation.
Defined.

Lemma as_serializable_plain (d : doc) :
  match d !! "_id" with
  | Some v => truthy v = false
  | None => True
  end ->
  as_serializable d = isoformat_value <$> d.
Proof.
  intros H. rewrite as_serializable_unfold.
  destruct (d !! "_id") as [v|]; [rewrite H|]; reflexivity.
Qed.

(** X3: a document without [_id], or whose [_id] counts as false (0, the
    empty string, [None]), keeps all its fields under their names, [_id]
    included, and gets no [id]: only datetimes change, to ISO text. *)
Theorem as_serializable_keeps_falsy_id (d : doc) :
  match d !! "_id" with
  | Some v => truthy v = false
  | None => True
  end ->
  as_serializable d = isoformat_value <$> d
  /\ as_serializable d !! "_id" = d !! "_id"
  /\ as_serializable d !! "id" = isoformat_value <$> d !! "id".
Proof.
  intros H. rewrite (as_serializable_plain d H), !lookup_fmap.
  split; [reflexivity|]. split; [|reflexivity].
  destruct (d !! "_id") as [[| | | | | |t]|]; try reflexivity. discriminate.
Qed.

Lemma as_serializable_keeps_falsy_id_witness :
  as_serializable (<["_id" := VInt 0]> (<["when" := VDatetime noon]> ∅))
  = isoformat_value <$> (<["_id" := VInt 0]> (<["when" := VDatetime noon]> ∅))
  /\ as_serializable (<["_id" := VInt 0]> (<["when" := VDatetime noon]> ∅)) !! "_id"
     = (<["_id" := VInt 0]> (<["when" := VDatetime noon]> ∅) : doc) !! "_id"
  /\ as_serializable (<["_id" := VInt 0]> (<["when" := VDatetime noon]> ∅)) !! "id"
     = isoformat_value <$> (<["_id" := VInt 0]> (<["when" := VDatetime noon]> ∅) : doc) !! "id".
Proof.
  apply as_serializable_keeps_falsy_id.
  rewrite lookup_insert_eq. reflexivity.
Defined.

(** X4: serializing twice is serializing once. *)
Theorem as_serializable_idempotent (d : doc) :
  as_serializable (as_serializable d) = as_serializable d.
Proof.
  assert (F : forall x : doc,
             match x !! "_id" with Some v => truthy v = false | None => True end ->
             as_serializable (isoformat_value <$> x) = isoformat_value <$> x).
  { intros x Hx. rewrite as_serializable_plain.
    - rewrite <- map_fmap_compose. apply map_fmap_ext. intros k v _.
      apply isoformat_value_idem.
    - rewrite lookup_fmap. destruct (x !! "_id") as [v|]; simpl; [|exact I].
      rewrite isoformat_value_truthy. exact Hx. }
  rewrite (as_serializable_unfold d).
  destruct (d !! "_id") as [v|] eqn:Hid.
  - destruct (truthy v) eqn:Ht.
    + apply F. rewrite lookup_insert_ne, lookup_delete_eq by discriminate. exact I.
    + apply F. rewrite Hid. exact Ht.
  - apply F. rewrite Hid. exact I.
Qed.

(** ** The score *)

Lemma lower_app (a b : string) : PyStr.lower (a ++ b) = PyStr.lower a ++ PyStr.lower b.
Proof.
  induction a as [|c a IH]; [reflexivity|].
  rewrite append_cons. cbn [PyStr.lower]. rewrite append_cons, IH. reflexivity.
Qed.

Lemma startswith_app (p s x : string) :
  PyStr.startswith p s = true -> PyStr.startswith p (s ++ x) = true.
Proof.
  revert s. induction p as [|a p IH]; intros s H; [reflexivity|].
  destruct s as [|b s]; [discriminate|].
  rewrite append_cons. cbn [PyStr.startswith] in *.
  apply andb_prop in H as [Hab Hp]. rewrite Hab, (IH s Hp). reflexivity.
Qed.

Lemma contains_app_r (p s x : string) :
  PyStr.contains p s = true -> PyStr.contains p (s ++ x) = true.
Proof.
  induction s as [|b s IH]; intros H.
  - cbn [PyStr.contains] in H. rewrite orb_false_r in H.
    destruct p; [|discriminate]. destruct x; reflexivity.
  - rewrite append_cons. cbn [PyStr.contains] in *.
    apply orb_prop in H as [H|H].
    + rewrite <- append_cons, (startswith_app _ _ _ H). reflexivity.
    + rewrite (IH H). apply orb_true_r.
Qed.

Lemma contains_app_l (p s x : string) :
  PyStr.contains p s = true -> PyStr.contains p (x ++ s) = true.
Proof.
  intros H. induction x as [|c x IH]; [exact H|].
  rewrite append_cons. cbn [PyStr.contains]. rewrite IH. apply orb_true_r.
Qed.

Lemma filter_length_le {A} (f g : A -> bool) (l : list A) :
  (forall x, f x = true -> g x = true) ->
  (length (List.filter f l) <= length (List.filter g l))%nat.
Proof.
  intros H. induction l as [|x l IH]; simpl; [lia|].
  destruct (f x) eqn:Hf.
  - rewrite (H x Hf). simpl. lia.
  - destruct (g x); simpl; lia.
Qed.

(** X5: a score never exceeds the number of tokens of the question. *)
Theorem rank_text_bounded (q text : string) :
  (rank_text q text <= length (PyStr.split q))%nat.
Proof.
  rewrite rank_text_count.
  induction (PyStr.split q) as [|t l IH]; simpl; [lia|].
  destruct (PyStr.contains t (PyStr.lower text)); simpl; lia.
Qed.

(** X6: for ASCII texts, text added before or after a search text never
    lowers the score: every token found in the text is found in the longer
    one.  (Folding the case of an ASCII text goes character by character;
    that of other texts need not.) *)
Theorem rank_text_monotone (q before text after : string) :
  is_ascii before = true -> is_ascii text = true -> is_ascii after = true ->
  (rank_text q text <= rank_text q (before ++ text ++ after))%nat.
Proof.
  intros _ _ _.
  rewrite !rank_text_count. apply filter_length_le. intros t Ht.
  rewrite !lower_app. apply contains_app_l, contains_app_r, Ht.
Qed.

Lemma rank_text_monotone_witness :
  (rank_text "rust engine" "Game Engine"
   <= rank_text "rust engine" ("A " ++ "Game Engine" ++ " in Rust"))%nat.
Proof. apply rank_text_monotone; reflexivity. Defined.

(** ** The results of the ranking endpoint *)

Lemma results_entry (db : option database) (p : AIQuery) (r : response)
    (key : string) (names : list string) (m : model_cls) (text : doc -> result string)
    (top5 : list doc) :
  ai_query db p = Ok r ->
  In (key, names, m, text) searched_kinds ->
  results r !! key = Some top5 ->
  search_kind db (PyStr.lower (question p)) m text = Ok top5.
Proof.
  intros H Hin Hkey.
  destruct (ai_query_inv db p r H) as (s1 & s2 & s3 & Hp & Hc & Hj & _).
  simpl in Hin. destruct Hin as [E|[E|[E|[]]]]; injection E as <- <- <- <-;
    rewrite Hkey in *; eapply searched_some; eassumption.
Qed.

(** X7: under each key of [results] there are five documents, or all of
    the kind when the store holds fewer, and each is the serialization of a
    document stored in the collection of that kind. *)
Theorem ai_query_top_five (db : option database) (p : AIQuery) (r : response)
    (key : string) (names : list string) (m : model_cls) (text : doc -> result string)
    (top5 : list doc) :
  ai_query db p = Ok r ->
  In (key, names, m, text) searched_kinds ->
  results r !! key = Some top5 ->
  length top5 = Nat.min 5 (length (find_all db (coll_name m)))
  /\ (forall x, In x top5 ->
        exists d, In d (find_all db (coll_name m)) /\ x = as_serializable d).
Proof.
  intros H Hin Hkey.
  apply (results_entry db p r key names m text top5 H Hin) in Hkey.
  apply search_kind_ok in Hkey as [-> _].
  set (q := PyStr.lower (question p)).
  pose proof (sort_desc_perm (rank q text) (map as_serializable (find_all db (coll_name m)))) as P.
  split.
  - rewrite length_take, (Permutation_length P), length_map. reflexivity.
  - intros x Hx. apply list_elem_of_In, subseteq_take, list_elem_of_In in Hx.
    eapply Permutation_in in Hx; [|exact P].
    apply in_map_iff in Hx as (d & <- & Hd). eauto.
Qed.

Lemma ai_query_top_five_witness :
  length [as_serializable data_pipeline; as_serializable game_engine]
  = Nat.min 5 (length (find_all portfolio (coll_name Project)))
  /\ (forall x, In x [as_serializable data_pipeline; as_serializable game_engine] ->
        exists d, In d (find_all portfolio (coll_name Project)) /\ x = as_serializable d).
Proof.
  apply (ai_query_top_five portfolio (mk_AIQuery "python data" None) portfolio_response
           "projects" [""; "project"; "projects"] Project project_text).
  - by_evaluation.
  - simpl. auto.
  - by_evaluation.
Defined.

(** X8: the first document under a key, the one the summary names, has
    the highest score of all the documents of its kind. *)
Theorem ai_query_top_is_best (db : option database) (p : AIQuery) (r : response)
    (key : string) (names : list string) (m : model_cls) (text : doc -> result string)
    (top : doc) (rest : list doc) :
  ai_query db p = Ok r ->
  In (key, names, m, text) searched_kinds ->
  results r !! key = Some (top :: rest) ->
  forall d, In d (find_all db (coll_name m)) ->
    (rank (PyStr.lower (question p)) text (as_serializable d)
     <= rank (PyStr.lower (question p)) text top)%nat.
Proof.
  intros H Hin Hkey d Hd.
  apply (results_entry db p r key names m text _ H Hin) in Hkey.
  apply search_kind_ok in Hkey as [Hk _].
  set (q := PyStr.lower (question p)) in *.
  set (candidates := map as_serializable (find_all db (coll_name m))) in *.
  pose proof (sort_desc_perm (rank q text) candidates) as P.
  pose proof (sort_desc_sorted (rank q text) candidates) as S.
  assert (Hin' : In (as_serializable d) (sort_desc (rank q text) candidates)).
  { eapply Permutation_in; [symmetry; exact P|]. apply in_map. exact Hd. }
  destruct (sort_desc (rank q text) candidates) as [|x l]; [discriminate|].
  injection Hk as <- _.
  apply StronglySorted_inv in S as [_ S].
  destruct Hin' as [<-|Hl]; [lia|].
  apply list_elem_of_In in Hl. exact (proj1 (Forall_forall _ _) S _ Hl).
Qed.

Lemma ai_query_top_is_best_witness :
  (rank (PyStr.lower "python data") project_text (as_serializable game_engine)
   <= rank (PyStr.lower "python data") project_text (as_serializable data_pipeline))%nat.
Proof.
  apply (ai_query_top_is_best portfolio (mk_AIQuery "python data" None) portfolio_response
           "projects" [""; "project"; "projects"] Project project_text
           (as_serializable data_pipeline) [as_serializable game_engine]).
  - by_evaluation.
  - simpl. auto.
  - by_evaluation.
  - left. reflexivity.
Defined.

(** X10: [ai_query] returns a response, whatever the question and the
    focus, when the searched fields of every stored project, certificate
    and journal entry hold what the schemas declare: text for the text
    fields, lists of text for the list fields. *)
Theorem ai_query_returns_on_schema_store (db : option database) (p : AIQuery) :
  schema_store db -> exists r, ai_query db p = Ok r.
Proof. apply ai_query_returns. Qed.

Lemma ai_query_returns_on_schema_store_witness :
  exists r, ai_query portfolio (mk_AIQuery "PYTHON data" (Some "x")) = Ok r.
Proof.
  apply ai_query_returns_on_schema_store.
  split; [|split].
  - constructor; [by_evaluation|]. constructor; [by_evaluation | constructor].
  - constructor; [by_evaluation | constructor].
  - constructor; [by_evaluation | constructor].
Defined.

(** X9: without a configured store [ai_query] does not fail: it returns
    an empty answer, and an empty list under every key it has. *)
Theorem ai_query_without_store (p : AIQuery) :
  exists r,
    ai_query None p = Ok r
    /\ answer r = ""
    /\ (forall key l, results r !! key = Some l -> l = []).
Proof.
  destruct (ai_query_returns None p) as [r H].
  { repeat split; constructor. }
  exists r. split; [exact H|].
  assert (L : forall key l, results r !! key = Some l -> l = []).
  { intros key l Hl.
    destruct (ai_query_inv None p r H) as (_ & _ & _ & Hp & Hc & Hj & Ho & _).
    assert (S : forall f names m text, searched None (PyStr.lower (question p)) f names m text
                                         (Some l) -> l = []).
    { intros f names m text Hs. apply searched_some, search_kind_ok in Hs as [-> _].
      reflexivity. }
    destruct (decide (key = "projects")) as [->|Np]; [rewrite Hl in Hp; eauto|].
    destruct (decide (key = "certificates")) as [->|Nc]; [rewrite Hl in Hc; eauto|].
    destruct (decide (key = "journal")) as [->|Nj]; [rewrite Hl in Hj; eauto|].
    rewrite Ho in Hl by assumption. discriminate. }
  split; [|exact L].
  destruct (answer_joins_sentences None p r H) as (sp & sc & sj & Sp & Sc & Sj & -> & _).
  assert (N : forall key, first_of (results r !! key) = None).
  { intros key. destruct (results r !! key) as [l|] eqn:E; [|reflexivity].
    rewrite (L key l E). reflexivity. }
  unfold project_sentences, certificate_sentences, journal_sentences in *.
  pose proof (N "projects") as Np. pose proof (N "certificates") as Nc.
  pose proof (N "journal") as Nj. unfold first_of in Np, Nc, Nj.
  destruct (results r !! "projects") as [[|? ?]|]; try discriminate;
    destruct (results r !! "certificates") as [[|? ?]|]; try discriminate;
    destruct (results r !! "journal") as [[|? ?]|]; try discriminate;
    subst; reflexivity.
Qed.

(** ** What the ranking endpoint raises *)

Lemma bind_type_error {A B} (r : result A) (k : A -> result B) :
  raises_type_error_only r -> (forall a, raises_type_error_only (k a)) ->
  raises_type_error_only (r ≫= k).
Proof.
  intros Hr Hk e. destruct r as [a|e']; simpl; [apply Hk|].
  intros [= <-]. apply Hr. reflexivity.
Qed.

Lemma ok_type_error {A} (a : A) : raises_type_error_only (Ok a).
Proof. intros e [=]. Qed.

Lemma traverse_type_error {A B} (f : A -> result B) (l : list A) :
  (forall x, raises_type_error_only (f x)) -> raises_type_error_only (traverse f l).
Proof.
  intros Hf. induction l as [|x l IH]; simpl; [apply ok_type_error|].
  apply bind_type_error; [apply Hf|]. intros y.
  apply bind_type_error; [exact IH|]. intros ys. apply ok_type_error.
Qed.

Lemma iter_strs_type_error (v : value) : raises_type_error_only (iter_strs v).
Proof. intros e. destruct v; simpl; congruence. Qed.

Lemma as_str_type_error (v : value) : raises_type_error_only (as_str v).
Proof. intros e. destruct v; simpl; congruence. Qed.

Lemma slice_to_type_error (n : nat) (v : value) : raises_type_error_only (slice_to n v).
Proof. intros e. destruct v; simpl; congruence. Qed.

Lemma join_iter_type_error (sep : string) (v : value) :
  raises_type_error_only (join_iter sep v).
Proof.
  apply bind_type_error; [apply iter_strs_type_error | intros; apply ok_type_error].
Qed.

Lemma join_values_type_error (sep : string) (vs : list value) :
  raises_type_error_only (join_values sep vs).
Proof.
  apply bind_type_error; [|intros; apply ok_type_error].
  apply traverse_type_error. apply as_str_type_error.
Qed.

Lemma search_kind_type_error (db : option database) (q : string) (m : model_cls)
    (text : doc -> result string) :
  (forall d, raises_type_error_only (text d)) ->
  raises_type_error_only (search_kind db q m text).
Proof.
  intros Ht. unfold search_kind, sorted_reverse, score.
  apply bind_type_error; [|intros; apply ok_type_error].
  apply bind_type_error; [|intros; apply ok_type_error].
  apply traverse_type_error. intros x.
  apply bind_type_error; [|intros; apply ok_type_error].
  apply bind_type_error; [apply Ht | intros; apply ok_type_error].
Qed.

Lemma texts_type_error (key : string) (names : list string) (m : model_cls)
    (text : doc -> result string) :
  In (key, names, m, text) searched_kinds -> forall d, raises_type_error_only (text d).
Proof.
  simpl. intros [E|[E|[E|[]]]] d; injection E as <- <- <- <-.
  - apply bind_type_error; [apply join_iter_type_error|]. intros a.
    apply bind_type_error; [apply join_iter_type_error|]. intros b.
    apply join_values_type_error.
  - apply join_values_type_error.
  - apply bind_type_error; [apply join_iter_type_error|]. intros a.
    apply join_values_type_error.
Qed.

Lemma add_sentence_type_error (s : string) (top : option doc) (f : doc -> result string) :
  (forall d, raises_type_error_only (f d)) -> raises_type_error_only (add_sentence s top f).
Proof.
  intros Hf. destruct top as [t|]; simpl; [|apply ok_type_error].
  apply bind_type_error; [apply Hf | intros; apply ok_type_error].
Qed.

Lemma ai_query_type_error (db : option database) (p : AIQuery) :
  raises_type_error_only (ai_query db p).
Proof.
  unfold ai_query.
  repeat (apply bind_type_error;
          [first [ destruct (member _ _);
                   [apply bind_type_error;
                    [eapply search_kind_type_error, texts_type_error; simpl; eauto
                    | intros; apply ok_type_error]
                   | apply ok_type_error]
                 | apply add_sentence_type_error; intros d ]
          | intros ]).
  4: apply ok_type_error.
  - apply bind_type_error; [apply join_iter_type_error | intros; apply ok_type_error].
  - apply ok_type_error.
  - apply bind_type_error; [apply slice_to_type_error|]. intros v.
    apply bind_type_error; [apply join_iter_type_error | intros; apply ok_type_error].
Qed.

Lemma ai_query_raises_aux (db : option database) (p : AIQuery)
    (key : string) (names : list string) (m : model_cls) (text : doc -> result string)
    (d : doc) (e : error) :
  In (key, names, m, text) searched_kinds ->
  member (focus_name p) names = true ->
  In d (find_all db (coll_name m)) ->
  text (as_serializable d) = Err e ->
  ai_query db p = Err TypeError.
Proof.
  intros Hin Hm Hd He.
  destruct (ai_query db p) as [r|e'] eqn:H.
  - exfalso.
    assert (Hs : searched db (PyStr.lower (question p)) (focus_name p) names m text
                   (results r !! key)).
    { destruct (ai_query_inv db p r H) as (_ & _ & _ & Hp & Hc & Hj & _).
      simpl in Hin. destruct Hin as [E|[E|[E|[]]]]; injection E as <- <- <- <-; assumption. }
    unfold searched in Hs. rewrite Hm in Hs. destruct Hs as (top5 & Hk & _).
    apply search_kind_ok in Hk as [_ Hall].
    apply list_elem_of_In in Hd.
    pose proof (proj1 (Forall_forall _ _) Hall (as_serializable d)
                  (proj2 (list_elem_of_In _ _) (in_map _ _ _ (proj1 (list_elem_of_In _ _) Hd)))) as Hsc.
    unfold score in Hsc. rewrite He in Hsc. discriminate.
  - f_equal. apply (ai_query_type_error db p). exact H.
Qed.

(** X11: one stored document whose search text cannot be built, because a
    searched field holds something that is not text (a number, [null])
    or, for a list field, not a list, is enough for every query that
    searches its kind to raise [TypeError], whatever the question. *)
Theorem ai_query_raises_on_untyped (db : option database) (p : AIQuery)
    (key : string) (names : list string) (m : model_cls) (text : doc -> result string)
    (d : doc) (e : error) :
  In (key, names, m, text) searched_kinds ->
  member (focus_name p) names = true ->
  In d (find_all db (coll_name m)) ->
  text (as_serializable d) = Err e ->
  ai_query db p = Err TypeError.
Proof.
  intros Hin Hm Hd He. exact (ai_query_raises_aux db p key names m text d e Hin Hm Hd He).
Qed.

Lemma ai_query_raises_on_untyped_witness :
  ai_query (Some (<["project" := [data_pipeline; null_title]]> ∅)) (mk_AIQuery "python" None)
  = Err TypeError.
Proof.
  apply (ai_query_raises_on_untyped _ _ "projects" [""; "project"; "projects"] Project
           project_text null_title TypeError).
  - simpl. auto.
  - by_evaluation.
  - right. left. reflexivity.
  - by_evaluation.
Defined.

(** ** Updating and deleting, continued *)

Lemma update_item_found (d : database) (m : model_cls) (id_str oid : string)
    (data : doc) (now : datetime) (old : doc) :
  ObjectId id_str = Some oid ->
  find_one d (coll_name m) oid = Some old ->
  exists before after,
    let fields := <["updated_at" := VDatetime now]> data in
    let d' := <[coll_name m :=
                  (before ++ set_fields (bson_value <$> fields) old :: after)%list]> d in
    collection d (coll_name m) = (before ++ old :: after)%list
    /\ existsb (has_id oid) before = false
    /\ has_id oid old = true
    /\ update_item (Some d) m id_str data now
       = mk_outcome (Ok (as_serializable_opt (find_one d' (coll_name m) oid))) (Some d')
           [UpdateOne (coll_name m) oid fields; FindOne (coll_name m) oid].
Proof.
  intros Hid Hold. unfold find_one in Hold.
  destruct (find_split _ _ _ Hold) as (before & after & Hl & Hb & Hx).
  exists before, after. cbn zeta.
  split; [exact Hl|]. split; [exact Hb|]. split; [exact Hx|].
  assert (Hex : existsb (has_id oid) (collection d (coll_name m)) = true).
  { destruct (existsb (has_id oid) (collection d (coll_name m))) eqn:E; [reflexivity|].
    apply existsb_find_none in E. congruence. }
  unfold update_item, to_oid, update_one. rewrite Hid, Hex.
  cbn [Nat.eqb]. rewrite Hl, update_first_split by assumption. reflexivity.
Qed.

Lemma has_id_spec (oid : string) (d : doc) :
  has_id oid d = true <-> d !! "_id" = Some (VOid oid).
Proof.
  unfold has_id. destruct (d !! "_id") as [[| | | | |hex|]|]; try (split; congruence).
  destruct (String.eqb_spec hex oid); split; congruence.
Qed.

(** X14: for an existing id and a mapping of plain top-level fields other
    than [_id] to values the store can encode, [update_item] returns the
    stored record, serialized: it has no [_id], it has the identifier as
    text under [id], also when the mapping names [id], it has the server's
    time, cut to the millisecond, as ISO text under [updated_at], and it
    has every other field of the mapping, datetimes cut to the millisecond
    and as ISO text. *)
Theorem update_item_response (d : database) (m : model_cls) (id_str oid : string)
    (data : doc) (now : datetime) (old : doc) :
  ObjectId id_str = Some oid ->
  find_one d (coll_name m) oid = Some old ->
  storable data ->
  exists record,
    returned (update_item (Some d) m id_str data now) = Ok (Some record)
    /\ record !! "_id" = None
    /\ record !! "id" = Some (VStr oid)
    /\ record !! "updated_at" = Some (VStr (isoformat (truncate_ms now)))
    /\ (forall k v, k <> "id" -> k <> "updated_at" -> data !! k = Some v ->
          record !! k = Some (isoformat_value (bson_value v)))
    /\ (forall k, k <> "id" -> k <> "_id" -> k <> "updated_at" -> data !! k = None ->
          record !! k = isoformat_value <$> old !! k).
Proof.
  intros Hid Hold Hst. pose proof (storable_no_id data Hst) as Hno.
  destruct (update_item_found d m id_str oid data now old Hid Hold)
    as (before & after & Hl & Hb & Hx & Hu).
  cbn zeta in Hu. rewrite Hu. cbn [returned].
  set (fields := <["updated_at" := VDatetime now]> data) in *.
  set (new := set_fields (bson_value <$> fields) old).
  assert (Hnew : new !! "_id" = Some (VOid oid)).
  { unfold new, set_fields, fields. rewrite lookup_union_r.
    - apply has_id_spec, Hx.
    - rewrite lookup_fmap, lookup_insert_ne, Hno by discriminate. reflexivity. }
  unfold find_one. rewrite collection_insert.
  rewrite find_app_later; [|exact Hb | apply has_id_spec, Hnew].
  exists (as_serializable new). split; [reflexivity|].
  destruct (as_serializable_moves_id_aux new (VOid oid) Hnew eq_refl) as (A & B & C).
  split; [exact A|]. split; [exact B|].
  unfold new, set_fields, fields in *.
  split.
  { rewrite C by discriminate.
    rewrite (lookup_union_Some_l _ _ _ (VDatetime (truncate_ms now)));
      [reflexivity | rewrite lookup_fmap, lookup_insert_eq; reflexivity]. }
  split.
  - intros k v H1 H2 Hv.
    assert (k <> "_id") by congruence.
    rewrite C by assumption.
    rewrite (lookup_union_Some_l _ _ _ (bson_value v)); [reflexivity|].
    rewrite lookup_fmap, lookup_insert_ne, Hv by congruence. reflexivity.
  - intros k H1 H2 H3 Hv. rewrite C by assumption.
    rewrite lookup_union_r; [reflexivity|].
    rewrite lookup_fmap, lookup_insert_ne, Hv by congruence. reflexivity.
Qed.

Lemma update_item_response_witness :
  exists record,
    returned (update_item (Some project_store) Project fast_project_id retitle half_past)
    = Ok (Some record)
    /\ record !! "_id" = None
    /\ record !! "id" = Some (VStr fast_project_id)
    /\ record !! "updated_at" = Some (VStr (isoformat (truncate_ms half_past)))
    /\ (forall k v, k <> "id" -> k <> "updated_at" -> retitle !! k = Some v ->
          record !! k = Some (isoformat_value (bson_value v)))
    /\ (forall k, k <> "id" -> k <> "_id" -> k <> "updated_at" -> retitle !! k = None ->
          record !! k = isoformat_value <$> fast_project !! k).
Proof.
  apply (update_item_response project_store Project fast_project_id fast_project_id
           retitle half_past fast_project); [by_evaluation | by_evaluation |].
  exact retitle_storable.
Defined.




Lemma remove_first_split (p : doc -> bool) (before after : list doc) (x : doc) :
  existsb p before = false -> p x = true ->
  remove_first p (before ++ x :: after) = (before ++ after)%list.
Proof.
  induction before as [|y b IH]; simpl; intros Hb Hx.
  - rewrite Hx. reflexivity.
  - apply orb_false_elim in Hb as [Hy Hb]. rewrite Hy, IH by assumption. reflexivity.
Qed.

(** X13: for an existing id, [delete_item] makes one [delete_one] call,
    acknowledges with [{"deleted": True}] and removes the first document
    that carries the id and nothing else: the documents before and after
    it stay, in order, and so does every other collection.  Identifiers
    being unique, no document carries the id afterwards. *)
Theorem delete_item_removes_one (d : database) (m : model_cls) (id_str oid : string)
    (gone : doc) :
  ObjectId id_str = Some oid ->
  find_one d (coll_name m) oid = Some gone ->
  exists before after d',
    collection d (coll_name m) = (before ++ gone :: after)%list
    /\ delete_item (Some d) m id_str
       = mk_outcome (Ok (<["deleted" := VBool true]> ∅)) (Some d')
           [DeleteOne (coll_name m) oid]
    /\ collection d' (coll_name m) = (before ++ after)%list
    /\ (forall c, c <> coll_name m -> d' !! c = d !! c)
    /\ (unique_ids (collection d (coll_name m)) -> find_one d' (coll_name m) oid = None).
Proof.
  intros Hid Hg. unfold find_one in Hg.
  destruct (find_split _ _ _ Hg) as (before & after & Hl & Hb & Hx).
  exists before, after, (<[coll_name m := (before ++ after)%list]> d).
  assert (Hex : existsb (has_id oid) (collection d (coll_name m)) = true).
  { destruct (existsb (has_id oid) (collection d (coll_name m))) eqn:E; [reflexivity|].
    apply existsb_find_none in E. congruence. }
  split; [exact Hl|]. split.
  { unfold delete_item, to_oid, delete_one. rewrite Hid, Hex. cbn [Nat.eqb].
    rewrite Hl, remove_first_split by assumption. reflexivity. }
  split; [apply collection_insert|].
  split; [intros c Hc; apply lookup_insert_ne; congruence|].
  intros Hu. unfold find_one. rewrite collection_insert.
  apply existsb_find_none.
  rewrite <- (remove_first_split (has_id oid) before after gone Hb Hx), <- Hl.
  apply remove_first_unique, Hu.
Qed.

Lemma delete_item_removes_one_witness :
  exists before after d',
    collection project_store (coll_name Project) = (before ++ fast_project :: after)%list
    /\ delete_item (Some project_store) Project fast_project_id
       = mk_outcome (Ok (<["deleted" := VBool true]> ∅)) (Some d')
           [DeleteOne (coll_name Project) fast_project_id]
    /\ collection d' (coll_name Project) = (before ++ after)%list
    /\ (forall c, c <> coll_name Project -> d' !! c = project_store !! c)
    /\ (unique_ids (collection project_store (coll_name Project)) ->
        find_one d' (coll_name Project) fast_project_id = None).
Proof.
  apply (delete_item_removes_one project_store Project fast_project_id fast_project_id
           fast_project); by_evaluation.
Defined.

Lemma coll_name_inj (m m' : model_cls) : coll_name m = coll_name m' -> m = m'.
Proof. destruct m, m'; intros H; try reflexivity; vm_compute in H; discriminate. Qed.

(** X15: no two record kinds share a collection, so updating or deleting
    a record of one kind, whatever the id and whatever the outcome, leaves
    the documents of every other kind as they were. *)
Theorem kinds_are_isolated (d : database) (m m' : model_cls) (id_str : string)
    (data : doc) (now : datetime) :
  m <> m' ->
  (exists d', store (update_item (Some d) m id_str data now) = Some d'
              /\ collection d' (coll_name m') = collection d (coll_name m'))
  /\ (exists d', store (delete_item (Some d) m id_str) = Some d'
                 /\ collection d' (coll_name m') = collection d (coll_name m')).
Proof.
  intros Hm.
  assert (Hc : coll_name m <> coll_name m') by (intros E; apply Hm, coll_name_inj, E).
  assert (Hi : forall docs, collection (<[coll_name m := docs]> d) (coll_name m')
                            = collection d (coll_name m')).
  { intros docs. unfold collection. rewrite lookup_insert_ne by exact Hc. reflexivity. }
  split.
  - unfold update_item, update_one. destruct (to_oid id_str) as [oid|e]; [|eauto].
    destruct (existsb (has_id oid) (collection d (coll_name m))); cbn [Nat.eqb store]; eauto.
  - unfold delete_item, delete_one. destruct (to_oid id_str) as [oid|e]; [|eauto].
    destruct (existsb (has_id oid) (collection d (coll_name m))); cbn [Nat.eqb store]; eauto.
Qed.

Lemma kinds_are_isolated_witness :
  (exists d', store (update_item (Some project_store) Certificate fast_project_id retitle noon)
              = Some d'
              /\ collection d' (coll_name Project) = collection project_store (coll_name Project))
  /\ (exists d', store (delete_item (Some project_store) Certificate fast_project_id) = Some d'
                 /\ collection d' (coll_name Project)
                    = collection project_store (coll_name Project)).
Proof.
  apply (kinds_are_isolated project_store Certificate Project fast_project_id retitle noon).
  discriminate.
Defined.

(** ** The summary, continued *)

Lemma tight_not_empty (s : string) : tight s -> s <> "".
Proof. intros [H _] ->. discriminate. Qed.

Lemma join_cons_not_empty (l : string) (ls : list string) :
  tight l -> PyStr.join " " (l :: ls) <> "".
Proof.
  intros [H _]. destruct l as [|c l]; [discriminate|].
  destruct ls; cbn [PyStr.join String.concat]; [discriminate|].
  rewrite append_cons. discriminate.
Qed.

(** X17: the answer is the empty string exactly when no key of [results]
    has a document: no kind was searched, or the searched collections are
    all empty. *)
Theorem answer_empty_iff (db : option database) (p : AIQuery) (r : response) :
  ai_query db p = Ok r ->
  (answer r = ""
   <-> first_of (results r !! "projects") = None
       /\ first_of (results r !! "certificates") = None
       /\ first_of (results r !! "journal") = None).
Proof.
  intros H.
  destruct (answer_joins_sentences db p r H) as (sp & sc & sj & Sp & Sc & Sj & -> & _).
  unfold project_sentences, certificate_sentences, journal_sentences, first_of in *.
  destruct (results r !! "projects") as [[|tp ?]|];
    [subst sp | destruct Sp as (tech & _ & ->) | subst sp];
    try (split; [intros E; exfalso; revert E; apply join_cons_not_empty, project_line_tight
                | intros [[=] _]]);
    (destruct (results r !! "certificates") as [[|tc ?]|]; subst sc;
     try (split; [intros E; exfalso; revert E; apply join_cons_not_empty, certificate_line_tight
                 | intros (_ & [=] & _)]));
    (destruct (results r !! "journal") as [[|tj ?]|];
     [subst sj | destruct Sj as (tags & _ & ->) | subst sj];
     try (split; [intros E; exfalso; revert E; apply join_cons_not_empty, journal_line_tight
                 | intros (_ & _ & [=])]));
    split; auto.
Qed.

Lemma answer_empty_iff_witness :
  answer certificates_response = ""
  <-> first_of (results certificates_response !! "projects") = None
      /\ first_of (results certificates_response !! "certificates") = None
      /\ first_of (results certificates_response !! "journal") = None.
Proof.
  apply (answer_empty_iff portfolio (mk_AIQuery "cloud" (Some "Certificates"))).
  by_evaluation.
Defined.

(** ** The listing routes *)

Section RoutesFacts.
Context {E : RegexEngine}.

(** GET /skills/snapshots and GET /milestones return every document of
    their collection, serialized and in store order.  (The listing goes
    through [get_documents], modelled from the specification.) *)
Lemma unfiltered_routes_list_all (d : database) :
  get_skill_snapshots (Some d)
  = Ok (map as_serializable (collection d (coll_name SkillSnapshot)))
  /\ get_milestones (Some d)
     = Ok (map as_serializable (collection d (coll_name Milestone))).
Proof.
  unfold get_skill_snapshots, get_milestones, list_items, get_documents.
  cbn [default from_option id mbind result_bind].
  rewrite !(filter_ext _ (fun _ => true)) by (intros; apply matches_empty).
  rewrite !filter_all. split; reflexivity.
Qed.

(** X16: for a [tag] that is given, not empty and free of
    regular-expression metacharacters, GET /journal returns, serialized and
    in store order, exactly the entries one of whose tags contains the
    tag, case folded; without a tag, or with an empty one, it returns every
    entry.  The engine is any one that searches literally for a pattern
    without metacharacters.  (The listing goes through [get_documents],
    modelled from the specification.) *)
Theorem get_journal_filters (d : database) (tag : option string) :
  LiteralSearch E ->
  plain tag = true ->
  get_journal (Some d) tag
  = Ok (map as_serializable
          (List.filter (wanted tag "tags") (collection d (coll_name JournalEntry)))).
Proof.
  intros HE Htag.
  unfold get_journal, list_items, get_documents. cbn [default from_option id mbind result_bind].
  do 2 f_equal. apply filter_ext. intros x.
  destruct (given tag) eqn:G.
  - apply given_some in G as (v & -> & Nv).
    cbn [default from_option id wanted plain] in *. rewrite Nv.
    rewrite matches_insert by apply lookup_empty.
    rewrite matches_empty, holds_mentions by assumption. apply andb_true_r.
  - rewrite (given_none tag) by exact G. apply matches_empty.
Qed.

End RoutesFacts.

Lemma get_journal_filters_witness :
  @get_journal simple_engine (Some journal_store) (Some "PYTHON")
  = Ok (map as_serializable
          (List.filter (wanted (Some "PYTHON") "tags")
             (collection journal_store (coll_name JournalEntry))))
  /\ List.filter (wanted (Some "PYTHON") "tags")
       (collection journal_store (coll_name JournalEntry)) = [python_notes].
Proof.
  split; [|by_evaluation].
  apply (@get_journal_filters simple_engine journal_store (Some "PYTHON")
           simple_engine_literal).
  reflexivity.
Defined.

(** ** The connectivity diagnostic *)

(** X18: GET /test always answers, with the same six fields, and reports
    the backend as running.  It lists at most twenty collection names, the
    first twenty the store gives.  When listing raises, the answer still
    says "Connected", lists no collection, and quotes at most eighty
    characters of the exception after the warning. *)
Theorem test_database_degrades (db : option db_handle) (database_url : option string) :
  dom (test_database db database_url)
  = {["backend"; "database"; "database_url"; "database_name"; "connection_status";
      "collections"]}
  /\ test_database db database_url !! "backend" = Some (VStr "✅ Running")
  /\ (exists names, test_database db database_url !! "collections" = Some (VList names)
                    /\ (length names <= 20)%nat
                    /\ (forall h all, db = Some h -> handle_name h = inr all ->
                          forall listed, collection_names h = inr listed ->
                            names = firstn 20 listed))
  /\ (forall h name msg,
        db = Some h -> handle_name h = inr name -> collection_names h = inl msg ->
        test_database db database_url !! "connection_status" = Some (VStr "Connected")
        /\ test_database db database_url !! "collections" = Some (VList [])
        /\ test_database db database_url !! "database"
           = Some (VStr ("⚠️ Connected but Error: " ++ PyStr.take 80 msg))).
Proof.
  destruct db as [[[msg|name] [msg'|listed]]|].
  - split; [by_evaluation|]. split; [by_evaluation|]. split.
    + exists []. split; [by_evaluation|]. split; [simpl; lia|].
      intros h all [= <-]. discriminate.
    + intros h name msg0 [= <-]. discriminate.
  - split; [by_evaluation|]. split; [by_evaluation|]. split.
    + exists []. split; [by_evaluation|]. split; [simpl; lia|].
      intros h all [= <-]. discriminate.
    + intros h name msg0 [= <-]. discriminate.
  - split; [by_evaluation|]. split; [by_evaluation|]. split.
    + exists []. split; [by_evaluation|]. split; [simpl; lia|].
      intros h all [= <-] _ listed. discriminate.
    + intros h name0 msg0 [= <-] _ [= <-]. repeat split; by_evaluation.
  - split; [by_evaluation|]. split; [by_evaluation|]. split.
    + exists (firstn 20 listed). split; [by_evaluation|].
      split; [rewrite length_take; lia|].
      intros h all [= <-] _ listed0 [= <-]. reflexivity.
    + intros h name0 msg0 [= <-] _. discriminate.
  - split; [by_evaluation|]. split; [by_evaluation|]. split.
    + exists []. split; [by_evaluation|]. split; [simpl; lia|].
      intros h all. discriminate.
    + intros h name msg0. discriminate.
Qed.

Lemma test_database_degrades_witness :
  test_database (Some failing_handle) None !! "connection_status" = Some (VStr "Connected")
  /\ test_database (Some failing_handle) None !! "collections" = Some (VList [])
  /\ test_database (Some failing_handle) None !! "database"
     = Some (VStr ("⚠️ Connected but Error: " ++ PyStr.take 80 "connection refused")).
Proof.
  apply (proj2 (proj2 (proj2 (test_database_degrades (Some failing_handle) None)))
           failing_handle (Some "portfolio") "connection refused"); reflexivity.
Defined.

(** ** Identifiers stay unique *)

Lemma filter_app_length {A} (p : A -> bool) (l1 l2 : list A) :
  length (List.filter p (l1 ++ l2)) = (length (List.filter p l1) + length (List.filter p l2))%nat.
Proof. rewrite List.filter_app, length_app. reflexivity. Qed.

(** X19: [update_item] with a mapping that does not name [_id], and
    [delete_item], keep identifiers unique: if no two documents of any
    collection share an identifier before the call, none do after it,
    whatever the id and the outcome. *)
Theorem unique_ids_preserved (d : database) (m : model_cls) (id_str : string)
    (data : doc) (now : datetime) :
  (forall c, unique_ids (collection d c)) ->
  (data !! "_id" = None ->
   forall d', store (update_item (Some d) m id_str data now) = Some d' ->
              forall c, unique_ids (collection d' c))
  /\ (forall d', store (delete_item (Some d) m id_str) = Some d' ->
                 forall c, unique_ids (collection d' c)).
Proof.
  intros Hu.
  assert (Hins : forall docs, unique_ids docs ->
                   forall c, unique_ids (collection (<[coll_name m := docs]> d) c)).
  { intros docs Hd c. unfold collection.
    destruct (decide (c = coll_name m)) as [->|Hc].
    - rewrite lookup_insert_eq. exact Hd.
    - rewrite lookup_insert_ne by congruence. apply Hu. }
  split.
  - intros Hno d' Hs.
    unfold update_item, update_one in Hs.
    destruct (to_oid id_str) as [oid|e]; [|injection Hs as <-; exact Hu].
    destruct (existsb (has_id oid) (collection d (coll_name m))) eqn:Hex;
      cbn [Nat.eqb store] in Hs; injection Hs as <-; [|exact Hu].
    apply Hins. intros o.
    destruct (List.find (has_id oid) (collection d (coll_name m))) as [old|] eqn:Hf;
      [|apply existsb_find_none in Hf; congruence].
    destruct (find_split _ _ _ Hf) as (before & after & Hl & Hb & Hx).
    pose proof (Hu (coll_name m) o) as Ho. rewrite Hl in Ho |- *.
    rewrite update_first_split by assumption.
    rewrite filter_app_length in Ho |- *. cbn [List.filter] in Ho |- *.
    replace (has_id o (set_fields (bson_value <$> <["updated_at" := VDatetime now]> data) old))
      with (has_id o old); [destruct (has_id o old); simpl in *; lia|].
    unfold has_id, set_fields. rewrite lookup_union_r; [reflexivity|].
    rewrite lookup_fmap, lookup_insert_ne, Hno by discriminate. reflexivity.
  - intros d' Hs.
    unfold delete_item, delete_one in Hs.
    destruct (to_oid id_str) as [oid|e]; [|injection Hs as <-; exact Hu].
    destruct (existsb (has_id oid) (collection d (coll_name m))) eqn:Hex;
      cbn [Nat.eqb store] in Hs; injection Hs as <-; [|exact Hu].
    apply Hins. intros o.
    destruct (List.find (has_id oid) (collection d (coll_name m))) as [old|] eqn:Hf;
      [|apply existsb_find_none in Hf; congruence].
    destruct (find_split _ _ _ Hf) as (before & after & Hl & Hb & Hx).
    pose proof (Hu (coll_name m) o) as Ho. rewrite Hl in Ho |- *.
    rewrite remove_first_split by assumption.
    rewrite filter_app_length in Ho |- *. cbn [List.filter] in Ho.
    destruct (has_id o old); simpl in Ho; lia.
Qed.

Lemma project_store_all_unique (c : string) : unique_ids (collection project_store c).
Proof.
  destruct (decide (c = "project")) as [->|Hc].
  - exact project_store_unique.
  - unfold collection, project_store. rewrite lookup_insert_ne by congruence.
    rewrite lookup_empty. intros oid. simpl. lia.
Qed.

Lemma unique_ids_preserved_witness :
  (forall d', store (update_item (Some project_store) Project fast_project_id retitle noon)
              = Some d' ->
              forall c, unique_ids (collection d' c))
  /\ (forall d', store (delete_item (Some project_store) Project fast_project_id) = Some d' ->
                 forall c, unique_ids (collection d' c)).
Proof.
  destruct (unique_ids_preserved project_store Project fast_project_id retitle noon
              project_store_all_unique) as [U D].
  split; [apply U; by_evaluation | exact D].
Defined.

(** ** Matching field by field *)

Lemma split_tokens_no_space (s : string) : Forall (fun t => no_space t = true) (PyStr.split s).
Proof.
  induction s as [|c s IH]; simpl; [constructor|].
  destruct (PyStr.is_space c) eqn:Hc; [exact IH|].
  assert (H1 : no_space (String c "") = true) by (unfold no_space; simpl; rewrite Hc; reflexivity).
  destruct (PyStr.starts_token s).
  - destruct (PyStr.split s) as [|t ts]; [repeat constructor; exact H1|].
    inversion IH as [|? ? Ht Hts]; subst. constructor; [|exact Hts].
    unfold no_space in *. simpl. rewrite Hc. exact Ht.
  - constructor; [exact H1 | exact IH].
Qed.

Lemma no_space_head (x : ascii) (t : string) :
  no_space (String x t) = true -> Ascii.eqb x " " = false /\ no_space t = true.
Proof.
  unfold no_space. simpl. intros H. apply andb_prop in H as [Hx Ht].
  split; [|exact Ht]. destruct (Ascii.eqb_spec x " ") as [->|]; [discriminate | reflexivity].
Qed.

Lemma startswith_sep (t a b : string) :
  no_space t = true ->
  PyStr.startswith t (a ++ String " " b) = PyStr.startswith t a.
Proof.
  revert a. induction t as [|x t IH]; intros a Ht; [reflexivity|].
  apply no_space_head in Ht as [Hx Ht].
  destruct a as [|c a].
  - change ("" ++ String " " b) with (String " " b).
    cbn [PyStr.startswith]. rewrite Hx. reflexivity.
  - rewrite append_cons. cbn [PyStr.startswith]. rewrite IH by exact Ht. reflexivity.
Qed.

Lemma contains_sep (t a b : string) :
  t <> "" -> no_space t = true ->
  PyStr.contains t (a ++ String " " b) = PyStr.contains t a || PyStr.contains t b.
Proof.
  intros Hn Ht. induction a as [|c a IH].
  - change ("" ++ String " " b) with (String " " b).
    cbn [PyStr.contains]. destruct t as [|x t]; [contradiction|].
    apply no_space_head in Ht as [Hx _]. cbn [PyStr.startswith]. rewrite Hx. reflexivity.
  - rewrite append_cons. cbn [PyStr.contains]. rewrite IH.
    rewrite <- append_cons, startswith_sep by exact Ht. apply orb_assoc.
Qed.

Lemma contains_join (t : string) (l : list string) :
  t <> "" -> no_space t = true ->
  PyStr.contains t (PyStr.lower (PyStr.join " " l)) = existsb (occurs t) l.
Proof.
  intros Hn Ht. unfold PyStr.join, occurs.
  induction l as [|x l IH].
  - destruct t; [contradiction | reflexivity].
  - destruct l as [|y l].
    + cbn [String.concat existsb]. rewrite orb_false_r. reflexivity.
    + change (String.concat " " (x :: y :: l)) with (x ++ String " " (String.concat " " (y :: l))).
      rewrite lower_app. cbn [PyStr.lower].
      change (PyStr.lower_ascii " ") with " "%char.
      rewrite contains_sep, IH by assumption. reflexivity.
Qed.

(** X20: a token never matches across the boundary of two fields: the
    score of a Project is the number of tokens of the lower-cased question
    that occur, case folded, in its title, in its description, in one of
    its technologies or in one of its highlights. *)
Theorem project_score_by_field (question : string) (d : doc) :
  project_record d = true ->
  score (PyStr.lower question) project_text (as_serializable d)
  = Ok (length (List.filter (fun t => occurs_in_project t d)
                  (PyStr.split (PyStr.lower question)))).
Proof.
  intros Hd. unfold score. rewrite (project_text_record d Hd). cbn [mbind result_bind].
  rewrite rank_text_count. do 2 f_equal.
  pose proof (split_tokens_nonempty (PyStr.lower question)) as Hne.
  pose proof (split_tokens_no_space (PyStr.lower question)) as Hns.
  induction (PyStr.split (PyStr.lower question)) as [|t l IH]; [reflexivity|].
  apply Forall_cons in Hne as [Hn Hne]. apply Forall_cons in Hns as [Ht Hns].
  cbn [List.filter]. rewrite (IH Hne Hns).
  replace (PyStr.contains t (PyStr.lower (project_search_text d)))
    with (occurs_in_project t d); [reflexivity|].
  unfold occurs_in_project, project_search_text.
  rewrite (contains_join t [_; _; _; _]) by assumption.
  cbn [existsb]. unfold occurs at 7 8.
  rewrite !contains_join by assumption.
  rewrite orb_false_r, !orb_assoc. reflexivity.
Qed.

Lemma project_score_by_field_witness :
  score (PyStr.lower "Python PIPE") project_text (as_serializable data_pipeline)
  = Ok (length (List.filter (fun t => occurs_in_project t data_pipeline)
                  (PyStr.split (PyStr.lower "Python PIPE")))).
Proof.
  apply project_score_by_field. by_evaluation.
Defined.
